(** * Personal Task Manager: validators and in-memory task storage

    A shallow embedding of [utils/validators.py], [models/task_model.py] and
    the create/update handlers of [routes/task_routes.py], with the
    properties of the specification stated and proved over it.

    Conventions of the embedding
    - Python values that reach the code come from a decoded JSON body, so
      they are modelled by the inductive [value] ([None], bool, int, float,
      str, list, dict).  A Python [str] is a Rocq [string].  The code
      compares strs for equality only, except in the date validator; the
      embedding of the date parser is exact on ASCII text (see there).
    - A request body / field mapping is a [gmap string value].
    - A Python exception is an explicit [Raise] in the [result] type.
    - [Task] objects are mutable and shared by reference: they live in a
      heap [gmap loc Task.t]; the storage's dict maps an id to a location. *)

From Stdlib Require Import ZArith Ascii String List.
From stdpp Require Import gmap strings list fin_maps.

Local Open Scope string_scope.
Local Open Scope Z_scope.

(** ** Python values and exceptions *)

#[warnings="-register-all"]
Inductive value : Type :=
| VNone
| VBool (b : bool)
| VInt (n : Z)
| VFloat (bits : Z)            (* binary64 bit pattern; never inspected *)
| VStr (s : string)
| VList (l : list value)
| VDict (l : list (string * value)).

Inductive exn : Type := TypeError | ValueError | KeyError | AttributeError.

Inductive result (A : Type) : Type :=
| Return (a : A)
| Raise (e : exn).
Arguments Return {A} a.
Arguments Raise {A} e.

(** Sequencing: an exception raised by the first computation propagates. *)
#[global] Instance result_bind : MBind result := λ A B k m,
  match m with
  | Return a => k a
  | Raise e => Raise e
  end.
#[global] Instance result_ret : MRet result := λ A a, Return a.

(** [d[k]] on a dict: [KeyError] when the key is absent. *)
Definition getitem (data : gmap string value) (k : string) : result value :=
  match data !! k with
  | Some v => Return v
  | None => Raise KeyError
  end.

(** [k in d] on a dict. *)
Definition contains (data : gmap string value) (k : string) : bool :=
  bool_decide (is_Some (data !! k)).

(** [d.get(k)] and [d.get(k, dflt)]. *)
Definition dict_get (data : gmap string value) (k : string) : value :=
  default VNone (data !! k).
Definition dict_get_default (data : gmap string value) (k : string)
    (dflt : value) : value :=
  default dflt (data !! k).

(** [v == s] for a str constant [s]: only an equal str compares equal. *)
Definition py_eq_str (v : value) (s : string) : bool :=
  match v with
  | VStr t => bool_decide (t = s)
  | _ => false
  end.

(** [v in l] for a list [l] of str constants. *)
Definition py_in (v : value) (l : list string) : bool :=
  existsb (py_eq_str v) l.

(** [sep.join(l)]. *)
Definition join (sep : string) (l : list string) : string :=
  String.concat sep l.

(** ** The standard library call [datetime.strptime(s, "%Y-%m-%d")]

    CPython compiles the format to the regular expression
    [(?P<Y>\d\d\d\d)-(?P<m>1[0-2]|0[1-9]|[1-9])-(?P<d>3[0-1]|[1-2]\d|0[1-9]|[1-9]| [1-9])],
    matches it at the start of the input with a backtracking matcher,
    raises [ValueError] when there is no match or when input remains after
    the match, converts the groups with [int] and builds the date, which
    raises [ValueError] for a day the month does not have or for year 0.
    It raises [TypeError] when the input is not a str.

    The embedding below reads [\d] as the digits 0 to 9, which is what it
    is on ASCII text.  On a str pattern CPython's [\d] and [int] also take
    the decimal digits of other scripts, so the real parser accepts, for
    instance, a year written in Arabic-Indic digits, where this embedding
    does not: the embedding is exact on ASCII text only, and a statement
    that says which texts are refused is made for ASCII text. *)

Module Strptime.

Inductive regex : Type :=
| Lit (c : ascii)
| Range (lo hi : ascii)
| Seq (r1 r2 : regex)
| Alt (r1 r2 : regex).

Definition in_range (lo hi c : ascii) : bool :=
  (N.leb (N_of_ascii lo) (N_of_ascii c) && N.leb (N_of_ascii c) (N_of_ascii hi))%bool.

(** Backtracking match of [r] at the head of [s]; [k] receives the rest
    of the input and may reject it, which makes the matcher try the next
    alternative, in the order the alternatives are written. *)
Fixpoint rmatch {A} (r : regex) (s : list ascii)
    (k : list ascii → option A) : option A :=
  match r with
  | Lit c =>
      match s with
      | x :: s' => if Ascii.eqb x c then k s' else None
      | [] => None
      end
  | Range lo hi =>
      match s with
      | x :: s' => if in_range lo hi x then k s' else None
      | [] => None
      end
  | Seq r1 r2 => rmatch r1 s (λ s1, rmatch r2 s1 k)
  | Alt r1 r2 =>
      match rmatch r1 s k with
      | Some a => Some a
      | None => rmatch r2 s k
      end
  end.

Definition digit : regex := Range "0" "9".

Definition re_Y : regex := Seq digit (Seq digit (Seq digit digit)).

Definition re_m : regex :=
  Alt (Seq (Lit "1") (Range "0" "2"))
 (Alt (Seq (Lit "0") (Range "1" "9"))
      (Range "1" "9")).

Definition re_d : regex :=
  Alt (Seq (Lit "3") (Range "0" "1"))
 (Alt (Seq (Range "1" "2") digit)
 (Alt (Seq (Lit "0") (Range "1" "9"))
 (Alt (Range "1" "9")
      (Seq (Lit " ") (Range "1" "9"))))).

(** The text a group consumed: what lies between two positions. *)
Definition consumed (before after : list ascii) : list ascii :=
  take (length before - length after)%nat before.

Record found : Type := {
  group_Y : list ascii;
  group_m : list ascii;
  group_d : list ascii;
  unconverted : list ascii
}.

(** [format_regex.match(data_string)] *)
Definition regex_match (s : list ascii) : option found :=
  rmatch re_Y s (λ s1,
  rmatch (Lit "-") s1 (λ s2,
  rmatch re_m s2 (λ s3,
  rmatch (Lit "-") s3 (λ s4,
  rmatch re_d s4 (λ s5,
    Some {| group_Y := consumed s s1; group_m := consumed s2 s3;
            group_d := consumed s4 s5; unconverted := s5 |}))))).

Definition digit_val (c : ascii) : Z :=
  Z.of_N (N_of_ascii c) - 48.

(** [int(text)] on the text of a group: surrounding blanks are dropped,
    the digits are read in base ten. *)
Definition py_int (text : list ascii) : Z :=
  fold_left (λ acc c, if Ascii.eqb c " " then acc else 10 * acc + digit_val c)
            text 0.

Definition is_leap (y : Z) : bool :=
  ((y mod 4 =? 0) && (negb (y mod 100 =? 0) || (y mod 400 =? 0)))%bool.

Definition days_in_month (y m : Z) : Z :=
  if m =? 2 then (if is_leap y then 29 else 28)
  else if (m =? 4) || (m =? 6) || (m =? 9) || (m =? 11) then 30
  else 31.

(** [datetime.date(y, m, d)]: [ValueError] outside the calendar. *)
Definition make_date (y m d : Z) : result (Z * Z * Z) :=
  if ((1 <=? y) && (y <=? 9999) && (1 <=? m) && (m <=? 12)
      && (1 <=? d) && (d <=? days_in_month y m))%bool
  then Return (y, m, d)
  else Raise ValueError.

Definition strptime_Ymd (date_string : value) : result (Z * Z * Z) :=
  match date_string with
  | VStr s =>
      match regex_match (list_ascii_of_string s) with
      | None => Raise ValueError
      | Some f =>
          match unconverted f with
          | _ :: _ => Raise ValueError
          | [] => make_date (py_int (group_Y f)) (py_int (group_m f))
                            (py_int (group_d f))
          end
      end
  | _ => Raise TypeError
  end.

End Strptime.

(** ** utils/validators.py *)

Definition validate_date (date_string : value) : result (bool * option string) :=
  match Strptime.strptime_Ymd date_string with
  | Return _ => Return (true, None)
  | Raise ValueError => Return (false, Some "Invalid date format. Use YYYY-MM-DD")
  | Raise e => Raise e
  end.

Definition valid_statuses : list string := ["Pending"; "In Progress"; "Completed"].

Definition validate_status (status : value) : bool * option string :=
  if negb (py_in status valid_statuses)
  then (false, Some ("Invalid status. Must be one of: " ++ join ", " valid_statuses))
  else (true, None).

Definition validate_task_data (data : gmap string value)
    (required_fields : list string) : bool * option string :=
  let missing_fields := List.filter (λ field, negb (contains data field)) required_fields in
  match missing_fields with
  | _ :: _ => (false, Some ("Missing required fields: " ++ join ", " missing_fields))
  | [] => (true, None)
  end.

Definition validate_create_task (data : gmap string value)
    : result (bool * option string) :=
  let required_fields := ["title"; "description"; "due_date"] in
  let '(is_valid, error) := validate_task_data data required_fields in
  if negb is_valid then Return (is_valid, error) else
  due ← getitem data "due_date";
  '(is_valid, error) ← validate_date due;
  if negb is_valid then Return (is_valid, error) else
  if contains data "status" then
    st ← getitem data "status";
    let '(is_valid, error) := validate_status st in
    if negb is_valid then Return (is_valid, error) else Return (true, None)
  else Return (true, None).

Definition validate_update_task (data : gmap string value)
    : result (bool * option string) :=
  if bool_decide (data = ∅) then Return (false, Some "No fields provided for update") else
  r ← (if contains data "due_date" then
         due ← getitem data "due_date";
         validate_date due
       else Return (true, None));
  if negb r.1 then Return r else
  if contains data "status" then
    st ← getitem data "status";
    let '(is_valid, error) := validate_status st in
    if negb is_valid then Return (is_valid, error) else Return (true, None)
  else Return (true, None).

(** ** models/task_model.py *)

(** Python [x is not None]. *)
Definition is_not_None (v : value) : bool :=
  match v with
  | VNone => false
  | _ => true
  end.

Module Task.

Record t : Type := mk {
  id : Z;
  title : value;
  description : value;
  due_date : value;
  status : value
}.

(** [Task.__init__]; the [status] parameter defaults to ["Pending"], an
    omitted argument is [None] here. *)
Definition init (task_id : Z) (title description due_date : value)
    (status : option value) : t :=
  mk task_id title description due_date (default (VStr "Pending") status).

Definition to_dict (self : t) : gmap string value :=
  {[ "id" := VInt (id self);
     "title" := title self;
     "description" := description self;
     "due_date" := due_date self;
     "status" := status self ]}.

(** [Task.update]: every parameter defaults to Python's [None], so the
    parameters are plain values and an omitted argument is [VNone]. *)
Definition update (self : t) (title description due_date status : value) : t :=
  let self :=
    if is_not_None title
    then mk (id self) title (Task.description self) (Task.due_date self) (Task.status self)
    else self in
  let self :=
    if is_not_None description
    then mk (id self) (Task.title self) description (Task.due_date self) (Task.status self)
    else self in
  let self :=
    if is_not_None due_date
    then mk (id self) (Task.title self) (Task.description self) due_date (Task.status self)
    else self in
  if is_not_None status
  then mk (id self) (Task.title self) (Task.description self) (Task.due_date self) status
  else self.

End Task.

(** Task objects are referred to by location. *)
Definition loc : Type := positive.

Module TaskStorage.

(** The storage instance, with the task objects its dict refers to:
    [tasks] and [next_id] are the attributes of the instance, [heap]
    holds every task object constructed so far. *)
Record t : Type := mk {
  heap : gmap loc Task.t;
  tasks : gmap Z loc;
  next_id : Z
}.

(** [TaskStorage.__init__], in a process that has built no task yet. *)
Definition init : t := mk ∅ ∅ 1.

(** Constructing an object puts it at a location not in use. *)
Definition alloc (h : gmap loc Task.t) : loc := fresh (dom h).

Definition create_task (σ : t) (title description due_date : value)
    (status : option value) : t * loc :=
  let task := alloc (heap σ) in
  let h := <[task := Task.init (next_id σ) title description due_date status]> (heap σ) in
  (mk h (<[next_id σ := task]> (tasks σ)) (next_id σ + 1), task).

Definition get_task (σ : t) (task_id : Z) : option loc :=
  tasks σ !! task_id.

(** [list(self.tasks.values())]; the listing holds every stored task
    once.  Python lists them in insertion order; [gmap] does not record
    that order, so what is stated of the listing is about its elements and
    their number, never about their order. *)
Definition get_all_tasks (σ : t) : list loc :=
  (map_to_list (tasks σ)).*2.

(** The task object is mutated where it lives; every holder of the
    reference sees the change. *)
Definition update_task (σ : t) (task_id : Z)
    (title description due_date status : value) : t * option loc :=
  match get_task σ task_id with
  | Some task =>
      (mk (alter (λ self, Task.update self title description due_date status)
                 task (heap σ))
          (tasks σ) (next_id σ),
       Some task)
  | None => (σ, None)
  end.

Definition delete_task (σ : t) (task_id : Z) : t * bool :=
  if bool_decide (is_Some (tasks σ !! task_id))
  then (mk (heap σ) (delete task_id (tasks σ)) (next_id σ), true)
  else (σ, false).

End TaskStorage.

Abbreviation state := TaskStorage.t.
Abbreviation heap := TaskStorage.heap.
Abbreviation tasks := TaskStorage.tasks.
Abbreviation next_id := TaskStorage.next_id.

(** *** Sequences of storage operations *)

Inductive op : Type :=
| Create (title description due_date : value) (status : option value)
| Get (task_id : Z)
| ListAll
| Update (task_id : Z) (title description due_date status : value)
| Delete (task_id : Z).

Inductive ret : Type :=
| RTask (task : loc)
| ROptTask (task : option loc)
| RTasks (l : list loc)
| RBool (b : bool).

Definition step (σ : state) (o : op) : state * ret :=
  match o with
  | Create title description due_date status =>
      let '(σ', task) := TaskStorage.create_task σ title description due_date status in
      (σ', RTask task)
  | Get task_id => (σ, ROptTask (TaskStorage.get_task σ task_id))
  | ListAll => (σ, RTasks (TaskStorage.get_all_tasks σ))
  | Update task_id title description due_date status =>
      let '(σ', r) := TaskStorage.update_task σ task_id title description due_date status in
      (σ', ROptTask r)
  | Delete task_id =>
      let '(σ', b) := TaskStorage.delete_task σ task_id in
      (σ', RBool b)
  end.

(** The state after a sequence of operations. *)
Fixpoint run (σ : state) (ops : list op) : state :=
  match ops with
  | [] => σ
  | o :: ops => run (step σ o).1 ops
  end.

(** The [id] attribute of the task each [Create] of the sequence returned,
    read when it is returned, in order; [None] would stand for a returned
    reference with no object behind it. *)
Fixpoint created_ids (σ : state) (ops : list op) : list (option Z) :=
  match ops with
  | [] => []
  | o :: ops =>
      let '(σ', r) := step σ o in
      match r with
      | RTask task => (Task.id <$> heap σ' !! task) :: created_ids σ' ops
      | _ => created_ids σ' ops
      end
  end.

Definition is_create (o : op) : bool :=
  match o with
  | Create _ _ _ _ => true
  | _ => false
  end.

(** ** routes/task_routes.py

    The create and update handlers, for a request whose body decodes to a
    JSON object.  A response is the dict given to [jsonify] and the status
    code; the handler's [except Exception] turns a raised exception into a
    500 response, whose body is the text of the exception. *)

Module Routes.

Inductive response : Type :=
| Json (body : gmap string value) (code : Z)
| InternalError (e : exn).

Definition error_body (error : option string) : gmap string value :=
  {[ "error" := from_option VStr VNone error ]}.

(** [task.to_dict()] through a reference; [None] has no such attribute. *)
Definition to_dict_at (h : gmap loc Task.t) (task : option loc)
    : result (gmap string value) :=
  match task ≫= (h !!.) with
  | Some self => Return (Task.to_dict self)
  | None => Raise AttributeError
  end.

Definition create_task (σ : state) (data : gmap string value)
    : state * response :=
  if bool_decide (data = ∅)
  then (σ, Json (error_body (Some "No data provided")) 400) else
  match validate_create_task data with
  | Raise e => (σ, InternalError e)
  | Return (is_valid, error) =>
      if negb is_valid then (σ, Json (error_body error) 400) else
      match (title ← getitem data "title";
             description ← getitem data "description";
             due_date ← getitem data "due_date";
             mret (title, description, due_date)) with
      | Raise e => (σ, InternalError e)
      | Return (title, description, due_date) =>
          let status := dict_get_default data "status" (VStr "Pending") in
          let '(σ', task) :=
            TaskStorage.create_task σ title description due_date (Some status) in
          match to_dict_at (heap σ') (Some task) with
          | Return body => (σ', Json body 201)
          | Raise e => (σ', InternalError e)
          end
      end
  end.

Definition update_task (σ : state) (task_id : Z) (data : gmap string value)
    : state * response :=
  if bool_decide (data = ∅)
  then (σ, Json (error_body (Some "No data provided")) 400) else
  match TaskStorage.get_task σ task_id with
  | None => (σ, Json (error_body (Some "Task not found")) 404)
  | Some _ =>
      match validate_update_task data with
      | Raise e => (σ, InternalError e)
      | Return (is_valid, error) =>
          if negb is_valid then (σ, Json (error_body error) 400) else
          let '(σ', updated_task) :=
            TaskStorage.update_task σ task_id
              (dict_get data "title") (dict_get data "description")
              (dict_get data "due_date") (dict_get data "status") in
          match to_dict_at (heap σ') updated_task with
          | Return body => (σ', Json body 200)
          | Raise e => (σ', InternalError e)
          end
      end
  end.

(** The body of the listing is a JSON array, one dict per task. *)
Inductive list_response : Type :=
| JsonList (body : list (gmap string value)) (code : Z)
| ListInternalError (e : exn).

Definition get_all_tasks (σ : state) : list_response :=
  match mapM (λ task, to_dict_at (heap σ) (Some task))
             (TaskStorage.get_all_tasks σ) with
  | Return body => JsonList body 200
  | Raise e => ListInternalError e
  end.

Definition get_task (σ : state) (task_id : Z) : response :=
  match TaskStorage.get_task σ task_id with
  | None => Json (error_body (Some "Task not found")) 404
  | Some task =>
      match to_dict_at (heap σ) (Some task) with
      | Return body => Json body 200
      | Raise e => InternalError e
      end
  end.

Definition delete_task (σ : state) (task_id : Z) : state * response :=
  let '(σ', success) := TaskStorage.delete_task σ task_id in
  if negb success then (σ', Json (error_body (Some "Task not found")) 404)
  else (σ', Json {[ "message" := VStr "Task deleted successfully" ]} 200).

End Routes.

(** ** The date format as the specification words it

    A text of exactly ten characters: four digits, a hyphen, two digits, a
    hyphen, two digits, whose month is 1 to 12 and whose day exists in
    that month of that year. *)

Module Spec.

Definition is_digit (c : ascii) : bool := Strptime.in_range "0" "9" c.

Definition number (cs : list ascii) : Z :=
  fold_left (λ acc c, 10 * acc + Strptime.digit_val c) cs 0.

Definition date_fields (s : string) : option (Z * Z * Z) :=
  match list_ascii_of_string s with
  | [y1; y2; y3; y4; h1; m1; m2; h2; d1; d2] =>
      if (forallb is_digit [y1; y2; y3; y4; m1; m2; d1; d2]
          && Ascii.eqb h1 "-" && Ascii.eqb h2 "-")%bool
      then Some (number [y1; y2; y3; y4], number [m1; m2], number [d1; d2])
      else None
  | _ => None
  end.

Definition is_iso_date (s : string) : bool :=
  match date_fields s with
  | Some (y, m, d) =>
      ((1 <=? m) && (m <=? 12) && (1 <=? d)
       && (d <=? Strptime.days_in_month y m))%bool
  | None => false
  end.

End Spec.

(** ** Vocabulary of the properties *)

(** The messages of the validators. *)
Definition date_error : string := "Invalid date format. Use YYYY-MM-DD".
Definition status_error : string :=
  "Invalid status. Must be one of: Pending, In Progress, Completed".

(** The value a field takes from an argument of [Task.update]. *)
Definition supplied_or (new old : value) : value :=
  if is_not_None new then new else old.

(** What every reachable state satisfies: the counter is above the id of
    every task object built so far, distinct objects have distinct ids, and
    the dict files each stored object under the object's own id. *)
Record wf (σ : state) : Prop := {
  wf_next_id : 1 ≤ next_id σ;
  wf_heap_below : ∀ l self, heap σ !! l = Some self → 1 ≤ Task.id self < next_id σ;
  wf_heap_inj : ∀ l1 l2 t1 t2,
    heap σ !! l1 = Some t1 → heap σ !! l2 = Some t2 →
    Task.id t1 = Task.id t2 → l1 = l2;
  wf_tasks : ∀ k l, tasks σ !! k = Some l →
    ∃ self, heap σ !! l = Some self ∧ Task.id self = k
}.

(** A storage holding the one task of the test suite. *)
Definition one_task : state :=
  (TaskStorage.create_task TaskStorage.init (VStr "Test Task")
     (VStr "This is a test task") (VStr "2026-12-31") None).1.

(** *** Sequences of requests

    The five routes of the blueprint, each with a body that decodes to a
    JSON object where it has one, and the state the handler leaves. *)

Inductive request : Type :=
| POST_tasks (data : gmap string value)
| GET_tasks
| GET_task (task_id : Z)
| PUT_task (task_id : Z) (data : gmap string value)
| DELETE_task (task_id : Z).

Definition handle (σ : state) (r : request) : state :=
  match r with
  | POST_tasks data => (Routes.create_task σ data).1
  | GET_tasks => σ
  | GET_task _ => σ
  | PUT_task task_id data => (Routes.update_task σ task_id data).1
  | DELETE_task task_id => (Routes.delete_task σ task_id).1
  end.

Fixpoint serve (σ : state) (rs : list request) : state :=
  match rs with
  | [] => σ
  | r :: rs => serve (handle σ r) rs
  end.

(** A task whose status is one of the three names and whose due date the
    date validator accepts. *)
Definition valid_fields (self : Task.t) : Prop :=
  py_in (Task.status self) valid_statuses = true
  ∧ validate_date (Task.due_date self) = Return (true, None).

(** The status code of a response; an exception caught by a handler is
    answered with 500. *)
Definition code_of (r : Routes.response) : Z :=
  match r with
  | Routes.Json _ code => code
  | Routes.InternalError _ => 500
  end.

(** The texts a regular expression of the date format denotes. *)
Inductive matches : Strptime.regex → list ascii → Prop :=
| matches_Lit c : matches (Strptime.Lit c) [c]
| matches_Range lo hi c :
    Strptime.in_range lo hi c = true → matches (Strptime.Range lo hi) [c]
| matches_Seq r1 r2 p1 p2 :
    matches r1 p1 → matches r2 p2 → matches (Strptime.Seq r1 r2) (p1 ++ p2)
| matches_Alt_l r1 r2 p : matches r1 p → matches (Strptime.Alt r1 r2) p
| matches_Alt_r r1 r2 p : matches r2 p → matches (Strptime.Alt r1 r2) p.

(** A text of ASCII characters only. *)
Definition is_ascii_text (s : string) : bool :=
  forallb (λ c, (N_of_ascii c <? 128)%N) (list_ascii_of_string s).

(** * Properties *)

(** ** Validators *)

Lemma contains_true data k : contains data k = true ↔ is_Some (data !! k).
Proof. unfold contains. by rewrite bool_decide_eq_true. Qed.

Lemma contains_false data k : contains data k = false ↔ data !! k = None.
Proof.
  unfold contains. rewrite bool_decide_eq_false. by rewrite eq_None_not_Some.
Qed.

Lemma strptime_raises date_string e :
  Strptime.strptime_Ymd date_string = Raise e → e = TypeError ∨ e = ValueError.
Proof.
  unfold Strptime.strptime_Ymd, Strptime.make_date.
  destruct date_string; try (intros [= <-]; by left).
  destruct (Strptime.regex_match _) as [f|]; [|intros [= <-]; by right].
  destruct (Strptime.unconverted f); [|intros [= <-]; by right].
  case_match; [done|]. intros [= <-]; by right.
Qed.

Lemma validate_date_cases date_string :
  validate_date date_string = Return (true, None)
  ∨ validate_date date_string = Return (false, Some date_error)
  ∨ validate_date date_string = Raise TypeError.
Proof.
  unfold validate_date.
  destruct (Strptime.strptime_Ymd date_string) as [d|e] eqn:E; [by left|].
  destruct (strptime_raises _ _ E) as [-> | ->]; auto.
Qed.

Lemma validate_date_str_cases s :
  validate_date (VStr s) = Return (true, None)
  ∨ validate_date (VStr s) = Return (false, Some date_error).
Proof.
  destruct (validate_date_cases (VStr s)) as [H|[H|H]]; auto.
  exfalso. revert H. unfold validate_date, Strptime.strptime_Ymd, Strptime.make_date.
  repeat case_match; discriminate.
Qed.

Lemma validate_status_cases status :
  validate_status status = (true, None)
  ∨ validate_status status = (false, Some status_error).
Proof. unfold validate_status. destruct (py_in _ _); simpl; auto. Qed.

Lemma py_in_valid_statuses v :
  py_in v valid_statuses = true
  ↔ v = VStr "Pending" ∨ v = VStr "In Progress" ∨ v = VStr "Completed".
Proof.
  unfold py_in, valid_statuses. simpl. rewrite orb_false_r, !orb_true_iff.
  destruct v; simpl; try (split; [intros [|[|]]|intros [|[|]]]; discriminate).
  rewrite !bool_decide_eq_true. split.
  - intros [-> | [-> | ->]]; auto.
  - intros [[= ->] | [[= ->] | [= ->]]]; auto.
Qed.

(** C8: [validate_status] succeeds on a string exactly when it is one of
    the three status names, compared exactly and with case; every failure
    carries the one message listing them; ["Completed"] succeeds and
    ["Done"] fails. *)
Theorem validate_status_spec :
  (∀ s : string,
     (validate_status (VStr s) = (true, None)
      ↔ s = "Pending" ∨ s = "In Progress" ∨ s = "Completed")
     ∧ (validate_status (VStr s) ≠ (true, None)
        ↔ validate_status (VStr s)
          = (false, Some "Invalid status. Must be one of: Pending, In Progress, Completed")))
  ∧ validate_status (VStr "Completed") = (true, None)
  ∧ validate_status (VStr "Done")
    = (false, Some "Invalid status. Must be one of: Pending, In Progress, Completed")
  ∧ validate_status (VStr "completed") ≠ (true, None)
  ∧ validate_status (VStr "Pending ") ≠ (true, None).
Proof.
  split; [|by vm_compute].
  intros s. split.
  - unfold validate_status.
    destruct (py_in (VStr s) valid_statuses) eqn:E; simpl.
    + apply py_in_valid_statuses in E. split; [|done].
      intros _. destruct E as [[= ->] | [[= ->] | [= ->]]]; auto.
    + split; [discriminate|]. intros H.
      assert (py_in (VStr s) valid_statuses = true) as E'; [|congruence].
      apply py_in_valid_statuses. destruct H as [-> | [-> | ->]]; auto.
  - destruct (validate_status_cases (VStr s)) as [H|H]; rewrite H.
    + split; [done|discriminate].
    + split; [done|discriminate].
Qed.

Lemma getitem_Some data k v : data !! k = Some v → getitem data k = Return v.
Proof. unfold getitem. by intros ->. Qed.

Lemma validate_status_return status :
  (let '(is_valid, error) := validate_status status in
   if negb is_valid then Return (is_valid, error) else Return (true, None))
  = Return (validate_status status).
Proof. by destruct (validate_status_cases status) as [-> | ->]. Qed.

(** The order of the checks of [validate_create_task]: the presence of
    title, description and due_date first, with the message listing all
    the missing names, comma-joined, in that order, whatever the other
    fields hold; otherwise the outcome of the due_date check, which is a
    failure, a raised exception or success; and only on success the status
    check, made only if the status key is present. *)
Theorem validate_create_task_spec (data : gmap string value) :
  let missing := List.filter (λ field, negb (contains data field))
                             ["title"; "description"; "due_date"] in
  match missing with
  | _ :: _ =>
      validate_create_task data
      = Return (false, Some ("Missing required fields: " ++ join ", " missing))
  | [] =>
      ∃ due, data !! "due_date" = Some due
        ∧ is_Some (data !! "title") ∧ is_Some (data !! "description")
        ∧ validate_create_task data
          = match validate_date due with
            | Return (true, _) =>
                match data !! "status" with
                | None => Return (true, None)
                | Some st => Return (validate_status st)
                end
            | failure => failure
            end
  end.
Proof.
  unfold validate_create_task, validate_task_data. simpl.
  destruct (contains data "title") eqn:Ht;
    destruct (contains data "description") eqn:Hd;
    destruct (contains data "due_date") eqn:Hdue; simpl; try reflexivity.
  apply contains_true in Ht, Hd, Hdue. destruct Hdue as [due Hdue].
  exists due. repeat split; try done.
  rewrite (getitem_Some _ _ _ Hdue). simpl.
  destruct (validate_date_cases due) as [-> | [-> | ->]]; simpl; try reflexivity.
  destruct (data !! "status") as [st|] eqn:Hst.
  - assert (contains data "status" = true) as -> by (apply contains_true; eauto).
    rewrite (getitem_Some _ _ _ Hst). simpl. apply validate_status_return.
  - assert (contains data "status" = false) as -> by by apply contains_false.
    reflexivity.
Qed.

Example validate_create_task_missing_all :
  validate_create_task {[ "status" := VStr "Done" ]}
  = Return (false, Some "Missing required fields: title, description, due_date").
Proof. by vm_compute. Qed.

Example validate_create_task_missing_before_date :
  validate_create_task {[ "description" := VStr ""; "due_date" := VStr "31-12-2026" ]}
  = Return (false, Some "Missing required fields: title").
Proof. by vm_compute. Qed.

Example validate_create_task_date_before_status :
  validate_create_task
    {[ "title" := VStr "t"; "description" := VStr ""; "due_date" := VStr "31-12-2026";
       "status" := VStr "Done" ]}
  = Return (false, Some date_error).
Proof. by vm_compute. Qed.

Example validate_create_task_no_status :
  validate_create_task
    {[ "title" := VStr "Test Task"; "description" := VStr "This is a test task";
       "due_date" := VStr "2026-12-31" ]}
  = Return (true, None).
Proof. by vm_compute. Qed.

Lemma validate_update_status_part data :
  (if contains data "status"
   then st ← getitem data "status";
        let '(is_valid, error) := validate_status st in
        if negb is_valid then Return (is_valid, error) else Return (true, None)
   else Return (true, None))
  = match data !! "status" with
    | None => Return (true, None)
    | Some st => Return (validate_status st)
    end.
Proof.
  destruct (data !! "status") as [st|] eqn:Hst.
  - assert (contains data "status" = true) as -> by (apply contains_true; eauto).
    rewrite (getitem_Some _ _ _ Hst). simpl. apply validate_status_return.
  - by assert (contains data "status" = false) as -> by by apply contains_false.
Qed.

Lemma validate_update_task_nonempty data :
  data ≠ ∅ →
  validate_update_task data
  = match data !! "due_date" with
    | Some due =>
        match validate_date due with
        | Return (true, _) =>
            match data !! "status" with
            | None => Return (true, None)
            | Some st => Return (validate_status st)
            end
        | failure => failure
        end
    | None =>
        match data !! "status" with
        | None => Return (true, None)
        | Some st => Return (validate_status st)
        end
    end.
Proof.
  intros Hne. unfold validate_update_task.
  rewrite bool_decide_eq_false_2 by done.
  destruct (data !! "due_date") as [due|] eqn:Hdue.
  - assert (contains data "due_date" = true) as -> by (apply contains_true; eauto).
    rewrite (getitem_Some _ _ _ Hdue). simpl.
    destruct (validate_date_cases due) as [-> | [-> | ->]]; simpl; try reflexivity.
    apply validate_update_status_part.
  - assert (contains data "due_date" = false) as -> by by apply contains_false.
    simpl. apply validate_update_status_part.
Qed.

(** C6: [validate_update_task] fails with "No fields provided for update"
    exactly on the empty mapping; on a non-empty mapping it checks due_date
    only if that key is present and returns its failure, then checks status
    only if that key is present; a mapping with neither key is accepted. *)
Theorem validate_update_task_spec (data : gmap string value) :
  (validate_update_task data = Return (false, Some "No fields provided for update")
   ↔ data = ∅)
  ∧ (data ≠ ∅ →
     validate_update_task data
     = match data !! "due_date" with
       | Some due =>
           match validate_date due with
           | Return (true, _) =>
               match data !! "status" with
               | None => Return (true, None)
               | Some st => Return (validate_status st)
               end
           | failure => failure
           end
       | None =>
           match data !! "status" with
           | None => Return (true, None)
           | Some st => Return (validate_status st)
           end
       end)
  ∧ (data ≠ ∅ → data !! "due_date" = None → data !! "status" = None →
     validate_update_task data = Return (true, None)).
Proof.
  split; [|split].
  - split.
    + intros H. destruct (decide (data = ∅)) as [|Hne]; [done|].
      rewrite (validate_update_task_nonempty _ Hne) in H. exfalso.
      destruct (data !! "due_date") as [due|];
        [destruct (validate_date_cases due) as [Hd | [Hd | Hd]]; rewrite Hd in H;
         try discriminate|];
        (destruct (data !! "status") as [st|]; [|discriminate];
         destruct (validate_status_cases st) as [Hs | Hs]; rewrite Hs in H;
         discriminate).
    + intros ->. reflexivity.
  - apply validate_update_task_nonempty.
  - intros Hne Hd Hs. rewrite (validate_update_task_nonempty _ Hne), Hd, Hs.
    reflexivity.
Qed.

Lemma validate_update_task_spec_witness :
  validate_update_task {[ "title" := VStr "" ]} = Return (true, None).
Proof.
  refine (proj2 (proj2 (validate_update_task_spec {[ "title" := VStr "" ]})) _ _ _);
    by vm_compute.
Defined.

Example validate_update_task_only_status :
  validate_update_task {[ "status" := VStr "Completed" ]} = Return (true, None).
Proof. by vm_compute. Qed.

Example validate_update_task_date_before_status :
  validate_update_task {[ "status" := VStr "Done"; "due_date" := VStr "2026-13-01" ]}
  = Return (false, Some date_error).
Proof. by vm_compute. Qed.

(** ** Task objects and the storage *)

Lemma Task_update_fields self title description due_date status :
  Task.update self title description due_date status
  = Task.mk (Task.id self)
            (supplied_or title (Task.title self))
            (supplied_or description (Task.description self))
            (supplied_or due_date (Task.due_date self))
            (supplied_or status (Task.status self)).
Proof.
  unfold Task.update, supplied_or. destruct self.
  by destruct (is_not_None title), (is_not_None description),
              (is_not_None due_date), (is_not_None status).
Qed.

Lemma Task_update_no_fields self : Task.update self VNone VNone VNone VNone = self.
Proof. by destruct self. Qed.

Lemma alloc_fresh (h : gmap loc Task.t) : h !! TaskStorage.alloc h = None.
Proof. unfold TaskStorage.alloc. apply (not_elem_of_dom (D := gset loc)). apply is_fresh. Qed.

Lemma alter_lookup_insert (h : gmap loc Task.t) f task self :
  h !! task = Some self → alter f task h = <[task := f self]> h.
Proof.
  intros Hs. apply map_eq. intros l. rewrite lookup_alter, lookup_insert.
  case_decide; subst; by rewrite ?Hs.
Qed.

(** C7: [delete_task] returns true exactly when the id had a task, which
    it then removes and nothing else; on an unknown id it returns false
    and changes nothing; after a delete, a get on the id finds nothing. *)
Theorem delete_task_spec (σ : state) (task_id : Z) :
  ((TaskStorage.delete_task σ task_id).2 = true
   ↔ is_Some (TaskStorage.get_task σ task_id))
  ∧ ((TaskStorage.delete_task σ task_id).2 = false
     ↔ TaskStorage.get_task σ task_id = None)
  ∧ ((TaskStorage.delete_task σ task_id).2 = false
     → (TaskStorage.delete_task σ task_id).1 = σ)
  ∧ TaskStorage.get_task (TaskStorage.delete_task σ task_id).1 task_id = None
  ∧ (∀ k, k ≠ task_id →
       TaskStorage.get_task (TaskStorage.delete_task σ task_id).1 k
       = TaskStorage.get_task σ k)
  ∧ next_id (TaskStorage.delete_task σ task_id).1 = next_id σ
  ∧ heap (TaskStorage.delete_task σ task_id).1 = heap σ.
Proof.
  unfold TaskStorage.delete_task, TaskStorage.get_task.
  case_bool_decide as H; simpl.
  - repeat split; try done.
    + intros E. rewrite E in H. by destruct H.
    + apply lookup_delete_eq.
    + intros k Hk. by apply lookup_delete_ne.
  - apply eq_None_not_Some in H. rewrite H. repeat split; try done.
Qed.

Lemma delete_task_spec_witness :
  (TaskStorage.delete_task one_task 2).1 = one_task
  ∧ (TaskStorage.delete_task one_task 1).2 = true.
Proof.
  split.
  - refine (proj1 (proj2 (proj2 (delete_task_spec one_task 2))) _). by vm_compute.
  - refine (proj2 (proj1 (delete_task_spec one_task 1)) _). vm_compute. by eexists.
Defined.

(** C4: [create_task] always returns: it builds a new task object whose id
    is the current [next_id] and whose other fields are the arguments,
    stores it under that id, adds one to [next_id] and returns the object;
    with no status argument the status is ["Pending"], and the create
    handler gives a body without status the same status. *)
Theorem create_task_spec (σ : state) (title description due_date : value)
    (status : option value) :
  let σ' := (TaskStorage.create_task σ title description due_date status).1 in
  let task := (TaskStorage.create_task σ title description due_date status).2 in
  let self := Task.mk (next_id σ) title description due_date
                      (default (VStr "Pending") status) in
  heap σ !! task = None
  ∧ heap σ' = <[task := self]> (heap σ)
  ∧ heap σ' !! task = Some self
  ∧ tasks σ' = <[next_id σ := task]> (tasks σ)
  ∧ TaskStorage.get_task σ' (next_id σ) = Some task
  ∧ next_id σ' = next_id σ + 1
  ∧ (TaskStorage.create_task σ title description due_date None).1
    = (TaskStorage.create_task σ title description due_date (Some (VStr "Pending"))).1
  ∧ ∀ data : gmap string value,
      data !! "title" = Some title → data !! "description" = Some description →
      data !! "due_date" = Some due_date → data !! "status" = None →
      validate_create_task data = Return (true, None) →
      Routes.create_task σ data
      = ((TaskStorage.create_task σ title description due_date None).1,
         Routes.Json (Task.to_dict (Task.mk (next_id σ) title description
                                            due_date (VStr "Pending"))) 201).
Proof.
  simpl. repeat split.
  - apply alloc_fresh.
  - apply lookup_insert_eq.
  - unfold TaskStorage.get_task. simpl. apply lookup_insert_eq.
  - intros data Ht Hd Hdue Hst Hv. unfold Routes.create_task.
    rewrite bool_decide_eq_false_2 by (intros ->; by rewrite lookup_empty in Ht).
    rewrite Hv. simpl.
    rewrite (getitem_Some _ _ _ Ht), (getitem_Some _ _ _ Hd), (getitem_Some _ _ _ Hdue).
    simpl. unfold dict_get_default. rewrite Hst. simpl.
    unfold Routes.to_dict_at. simpl. by rewrite lookup_insert_eq.
Qed.

Lemma create_task_spec_witness :
  Routes.create_task TaskStorage.init
    {[ "title" := VStr "Test Task"; "description" := VStr "This is a test task";
       "due_date" := VStr "2026-12-31" ]}
  = (one_task,
     Routes.Json (Task.to_dict (Task.mk 1 (VStr "Test Task") (VStr "This is a test task")
                                        (VStr "2026-12-31") (VStr "Pending"))) 201).
Proof.
  refine (proj2 (proj2 (proj2 (proj2 (proj2 (proj2 (proj2
    (create_task_spec TaskStorage.init (VStr "Test Task") (VStr "This is a test task")
       (VStr "2026-12-31") None)))))))
    {[ "title" := VStr "Test Task"; "description" := VStr "This is a test task";
       "due_date" := VStr "2026-12-31" ]} _ _ _ _ _); by vm_compute.
Defined.

(** C2: on an id with no task [update_task] returns [None] and changes
    nothing, whatever the arguments; on a stored task it returns that same
    object, mutated where it lives: each field whose argument is supplied
    (is not [None]) takes the argument, every other field and the id keep
    their value, and nothing else in the state changes; supplying only a
    status changes only the status. *)
Theorem update_task_spec (σ : state) (task_id : Z)
    (title description due_date status : value) :
  (TaskStorage.get_task σ task_id = None →
   TaskStorage.update_task σ task_id title description due_date status = (σ, None))
  ∧ (∀ task self,
       TaskStorage.get_task σ task_id = Some task → heap σ !! task = Some self →
       let σ' := (TaskStorage.update_task σ task_id title description due_date status).1 in
       let self' := Task.mk (Task.id self)
                      (if is_not_None title then title else Task.title self)
                      (if is_not_None description then description
                       else Task.description self)
                      (if is_not_None due_date then due_date else Task.due_date self)
                      (if is_not_None status then status else Task.status self) in
       (TaskStorage.update_task σ task_id title description due_date status).2
       = Some task
       ∧ TaskStorage.get_task σ' task_id = Some task
       ∧ heap σ' = <[task := self']> (heap σ)
       ∧ heap σ' !! task = Some self'
       ∧ tasks σ' = tasks σ
       ∧ next_id σ' = next_id σ
       ∧ (title = VNone → description = VNone → due_date = VNone →
          heap σ' !! task
          = Some (Task.mk (Task.id self) (Task.title self) (Task.description self)
                          (Task.due_date self)
                          (if is_not_None status then status else Task.status self)))).
Proof.
  split.
  - intros H. unfold TaskStorage.update_task. by rewrite H.
  - intros task self Hg Hh. unfold TaskStorage.update_task. rewrite Hg. simpl.
    rewrite (alter_lookup_insert _ _ _ _ Hh), Task_update_fields.
    unfold supplied_or. repeat split; try done.
    + apply lookup_insert_eq.
    + intros -> -> ->. simpl. apply lookup_insert_eq.
Qed.

Lemma update_task_spec_witness :
  heap (TaskStorage.update_task one_task 1 VNone VNone VNone (VStr "Completed")).1
    !! TaskStorage.alloc ∅
  = Some (Task.mk 1 (VStr "Test Task") (VStr "This is a test task")
                  (VStr "2026-12-31") (VStr "Completed"))
  ∧ TaskStorage.update_task one_task 7 VNone VNone VNone (VStr "Completed")
    = (one_task, None).
Proof.
  split.
  - refine (proj2 (proj2 (proj2 (proj2 (proj2 (proj2
      (proj2 (update_task_spec one_task 1 VNone VNone VNone (VStr "Completed"))
         (TaskStorage.alloc ∅)
         (Task.mk 1 (VStr "Test Task") (VStr "This is a test task")
                  (VStr "2026-12-31") (VStr "Pending")) _ _))))))
      eq_refl eq_refl eq_refl); by vm_compute.
  - refine (proj1 (update_task_spec one_task 7 VNone VNone VNone (VStr "Completed")) _).
    by vm_compute.
Defined.

(** C10: with no field argument supplied, [update_task] on a stored id
    succeeds: it returns the task and leaves the whole state, so every
    field of the task, as it was.  The empty mapping is refused before the
    storage is reached: by [validate_update_task], and in the update
    handler by its own guard on an empty body. *)
Theorem update_task_no_fields (σ : state) (task_id : Z) (task : loc) :
  TaskStorage.get_task σ task_id = Some task →
  TaskStorage.update_task σ task_id VNone VNone VNone VNone = (σ, Some task)
  ∧ validate_update_task ∅ = Return (false, Some "No fields provided for update")
  ∧ Routes.update_task σ task_id ∅
    = (σ, Routes.Json (Routes.error_body (Some "No data provided")) 400).
Proof.
  intros Hg. split; [|done].
  unfold TaskStorage.update_task. rewrite Hg. f_equal.
  rewrite alter_id by (intros; apply Task_update_no_fields).
  by destruct σ.
Qed.

Lemma update_task_no_fields_witness :
  TaskStorage.update_task one_task 1 VNone VNone VNone VNone
  = (one_task, Some (TaskStorage.alloc ∅)).
Proof.
  refine (proj1 (update_task_no_fields one_task 1 (TaskStorage.alloc ∅) _)).
  by vm_compute.
Defined.

(** ** Identifiers over sequences of operations *)

Lemma wf_init : wf TaskStorage.init.
Proof. split; simpl; try done; intros *; by rewrite lookup_empty. Qed.

Lemma Task_update_id self title description due_date status :
  Task.id (Task.update self title description due_date status) = Task.id self.
Proof. by rewrite Task_update_fields. Qed.

Lemma create_task_wf σ title description due_date status :
  wf σ → wf (TaskStorage.create_task σ title description due_date status).1.
Proof.
  intros [Hn Hb Hi Ht]. pose proof (alloc_fresh (heap σ)) as Hf.
  split; simpl.
  - lia.
  - intros l self. rewrite lookup_insert. case_decide.
    + intros [= <-]. simpl. lia.
    + intros H'. apply Hb in H'. lia.
  - intros l1 l2 t1 t2. rewrite !lookup_insert.
    repeat case_decide; subst; try done.
    + intros [= <-] H2 E. apply Hb in H2. simpl in E. lia.
    + intros H1 [= <-] E. apply Hb in H1. simpl in E. lia.
    + apply Hi.
  - intros k l. rewrite lookup_insert. case_decide.
    + intros [= <-]. subst k. rewrite lookup_insert_eq. eauto.
    + intros H'. destruct (Ht _ _ H') as (self & Hs & Hid).
      exists self. split; [|done]. rewrite lookup_insert_ne; [done|].
      intros <-. by rewrite Hf in Hs.
Qed.

Lemma update_task_wf σ task_id title description due_date status :
  wf σ → wf (TaskStorage.update_task σ task_id title description due_date status).1.
Proof.
  intros Hwf. unfold TaskStorage.update_task.
  destruct (TaskStorage.get_task σ task_id) as [task|]; [|done].
  destruct Hwf as [Hn Hb Hi Ht]. simpl.
  assert (∀ l self',
    alter (λ self, Task.update self title description due_date status) task (heap σ)
      !! l = Some self' →
    ∃ self, heap σ !! l = Some self ∧ Task.id self' = Task.id self) as Hback.
  { intros l self'. rewrite lookup_alter. case_decide; [subst|by eauto].
    destruct (heap σ !! l) as [self|]; [|done]. intros [= <-].
    exists self. split; [done|apply Task_update_id]. }
  split; simpl; [done|..].
  - intros l self' (self & Hs & ->)%Hback. eauto.
  - intros l1 l2 t1 t2 (s1 & H1 & ->)%Hback (s2 & H2 & ->)%Hback. eauto.
  - intros k l (self & Hs & Hid)%Ht. rewrite lookup_alter. case_decide.
    + subst. rewrite Hs. eexists. split; [done|]. by rewrite Task_update_id.
    + eauto.
Qed.

Lemma delete_task_wf σ task_id : wf σ → wf (TaskStorage.delete_task σ task_id).1.
Proof.
  intros Hwf. unfold TaskStorage.delete_task. case_bool_decide; [|done].
  destruct Hwf as [Hn Hb Hi Ht]. split; simpl; try done.
  intros k l [_ H']%lookup_delete_Some. eauto.
Qed.

Lemma step_wf σ o : wf σ → wf (step σ o).1.
Proof.
  intros Hwf. destruct o; simpl; try done.
  - by apply create_task_wf.
  - pose proof (update_task_wf σ task_id title description due_date status Hwf).
    by destruct (TaskStorage.update_task _ _ _ _ _ _).
  - pose proof (delete_task_wf σ task_id Hwf).
    by destruct (TaskStorage.delete_task _ _).
Qed.

Lemma run_wf σ ops : wf σ → wf (run σ ops).
Proof. revert σ. induction ops as [|o ops IH]; intros σ H; simpl; auto using step_wf. Qed.

Lemma run_app σ ops1 ops2 : run σ (ops1 ++ ops2) = run (run σ ops1) ops2.
Proof. revert σ. induction ops1; intros; simpl; auto. Qed.

Lemma step_next_id σ o :
  next_id (step σ o).1 = if is_create o then next_id σ + 1 else next_id σ.
Proof.
  destruct o; simpl; try done.
  - unfold TaskStorage.update_task. by destruct (TaskStorage.get_task _ _).
  - unfold TaskStorage.delete_task. by case_bool_decide.
Qed.

Lemma created_ids_cons σ o ops :
  created_ids σ (o :: ops)
  = if is_create o then Some (next_id σ) :: created_ids (step σ o).1 ops
    else created_ids (step σ o).1 ops.
Proof.
  destruct o; simpl; try done.
  - by rewrite lookup_insert_eq.
  - by destruct (TaskStorage.update_task _ _ _ _ _ _).
  - by destruct (TaskStorage.delete_task _ _).
Qed.

Lemma created_ids_length σ ops :
  length (created_ids σ ops) = length (List.filter is_create ops).
Proof.
  revert σ. induction ops as [|o ops IH]; intros σ; [done|].
  rewrite created_ids_cons. simpl. destruct (is_create o); simpl; by rewrite IH.
Qed.

Lemma created_ids_above σ ops x :
  x ∈ created_ids σ ops → ∃ z, x = Some z ∧ next_id σ ≤ z.
Proof.
  revert σ. induction ops as [|o ops IH]; intros σ; [by intros ?%elem_of_nil|].
  rewrite created_ids_cons. pose proof (step_next_id σ o) as Hn.
  destruct (is_create o).
  - intros [->|Hx]%elem_of_cons; [exists (next_id σ); split; [done|lia]|].
    destruct (IH _ Hx) as (z & -> & Hz). exists z. split; [done|lia].
  - intros Hx. destruct (IH _ Hx) as (z & -> & Hz). exists z. split; [done|lia].
Qed.

Lemma created_ids_increasing σ ops i j x y :
  (i < j)%nat →
  created_ids σ ops !! i = Some x → created_ids σ ops !! j = Some y →
  ∃ a b, x = Some a ∧ y = Some b ∧ a < b.
Proof.
  revert σ i j. induction ops as [|o ops IH]; intros σ i j Hij; [done|].
  rewrite created_ids_cons. pose proof (step_next_id σ o) as Hn.
  destruct (is_create o); [|by eauto].
  destruct j as [|j]; [lia|]. destruct i as [|i]; simpl.
  - intros [= <-] Hy. apply list_elem_of_lookup_2 in Hy.
    destruct (created_ids_above _ _ _ Hy) as (z & -> & Hz).
    exists (next_id σ), z. repeat split; lia.
  - apply IH. lia.
Qed.

(** C1: over every sequence of storage operations run from a fresh
    storage, each create returns a task with an id, each such id is
    strictly greater than the id of every earlier create, no two task
    objects ever built carry the same id, every stored task is filed under
    its own id, and the id of a deleted task is not given out by any later
    create. *)
Theorem created_ids_unique (ops : list op) :
  let ids := created_ids TaskStorage.init ops in
  let σ := run TaskStorage.init ops in
  length ids = length (List.filter is_create ops)
  ∧ (∀ i j x y, (i < j)%nat → ids !! i = Some x → ids !! j = Some y →
       ∃ a b, x = Some a ∧ y = Some b ∧ a < b)
  ∧ (∀ l1 l2 t1 t2, heap σ !! l1 = Some t1 → heap σ !! l2 = Some t2 →
       l1 ≠ l2 → Task.id t1 ≠ Task.id t2)
  ∧ (∀ k l, tasks σ !! k = Some l →
       ∃ self, heap σ !! l = Some self ∧ Task.id self = k)
  ∧ (∀ pre post k, ops = (pre ++ Delete k :: post)%list →
       is_Some (TaskStorage.get_task (run TaskStorage.init pre) k) →
       Some k ∉ created_ids (run TaskStorage.init (pre ++ [Delete k])%list) post).
Proof.
  simpl. pose proof (run_wf _ ops wf_init) as [Hn Hb Hi Ht].
  split; [apply created_ids_length|].
  split; [intros *; apply created_ids_increasing|].
  split; [intros l1 l2 t1 t2 H1 H2 Hne E; by apply Hne, (Hi l1 l2 t1 t2)|].
  split; [done|].
  intros pre post k _ [l Hl] Hin.
  pose proof (run_wf _ pre wf_init) as [_ Hb' _ Ht'].
  destruct (Ht' _ _ Hl) as (self & Hs & Hid). apply Hb' in Hs.
  apply created_ids_above in Hin as (z & [= <-] & Hz).
  rewrite run_app in Hz. simpl in Hz.
  pose proof (step_next_id (run TaskStorage.init pre) (Delete k)) as Hd.
  simpl in Hd. lia.
Qed.

Lemma created_ids_unique_witness :
  Some 1 ∉ created_ids
    (run TaskStorage.init [Create (VStr "a") (VStr "") (VStr "2026-12-31") None; Delete 1])
    [Create (VStr "b") (VStr "") (VStr "2026-12-31") None; Get 1].
Proof.
  refine (proj2 (proj2 (proj2 (proj2 (created_ids_unique
    [Create (VStr "a") (VStr "") (VStr "2026-12-31") None; Delete 1;
     Create (VStr "b") (VStr "") (VStr "2026-12-31") None; Get 1]))))
    [Create (VStr "a") (VStr "") (VStr "2026-12-31") None]
    [Create (VStr "b") (VStr "") (VStr "2026-12-31") None; Get 1] 1 eq_refl _).
  vm_compute. by eexists.
Defined.

Example created_ids_after_deletes :
  created_ids TaskStorage.init
    [Create (VStr "a") (VStr "") (VStr "2026-12-31") None;
     Create (VStr "b") (VStr "") (VStr "2026-12-31") (Some (VStr "Completed"));
     Delete 2; Delete 1; ListAll;
     Create (VStr "c") (VStr "") (VStr "2026-12-31") None;
     Update 3 VNone VNone VNone (VStr "Completed"); Get 1;
     Create (VStr "d") (VStr "") (VStr "2026-12-31") None]
  = [Some 1; Some 2; Some 3; Some 4].
Proof. by vm_compute. Qed.

(** ** Absent, null and empty fields in an update request *)

Lemma supplied_or_dict_get data k old :
  supplied_or (dict_get data k) old
  = match data !! k with
    | None | Some VNone => old
    | Some v => v
    end.
Proof.
  unfold supplied_or, dict_get. destruct (data !! k) as [v|]; [|done]. by destruct v.
Qed.

(** C9, as stated, fails: a title supplied as null is not applied, the
    stored title stays what it was, and the request has the effect and the
    response of the same request without the title key. *)
Lemma update_null_title_not_applied :
  (Task.title <$> (TaskStorage.get_task
                     (Routes.update_task one_task 1 {[ "title" := VNone ]}).1 1
                   ≫= (heap (Routes.update_task one_task 1 {[ "title" := VNone ]}).1 !!.)))
  = Some (VStr "Test Task")
  ∧ Routes.update_task one_task 1 {[ "title" := VNone ]}
    = (one_task,
       Routes.Json (Task.to_dict (Task.mk 1 (VStr "Test Task") (VStr "This is a test task")
                                          (VStr "2026-12-31") (VStr "Pending"))) 200)
  ∧ Routes.update_task one_task 1 {[ "title" := VNone; "status" := VStr "Completed" ]}
    = Routes.update_task one_task 1 {[ "status" := VStr "Completed" ]}
  ∧ Task.update (Task.mk 1 (VStr "Test Task") (VStr "") (VStr "2026-12-31") (VStr "Pending"))
                VNone VNone VNone VNone
    = Task.mk 1 (VStr "Test Task") (VStr "") (VStr "2026-12-31") (VStr "Pending").
Proof. by vm_compute. Qed.

(** C9, amended: the update tells an absent field from one supplied as an
    empty string, but not from one supplied as null.  For every stored task
    and every request body that passes validation, the handler sets each
    field whose key holds a value other than null, the empty string
    included, and leaves a field whose key is absent or holds null as it
    was; at the task object, an empty string argument is applied and a
    [None] argument is not. *)
Theorem update_null_is_absent (σ : state) (task_id : Z) (task : loc)
    (self : Task.t) (data : gmap string value) :
  TaskStorage.get_task σ task_id = Some task →
  heap σ !! task = Some self →
  validate_update_task data = Return (true, None) →
  let field k old :=
    match data !! k with
    | None | Some VNone => old
    | Some v => v
    end in
  let self' := Task.mk (Task.id self)
                       (field "title" (Task.title self))
                       (field "description" (Task.description self))
                       (field "due_date" (Task.due_date self))
                       (field "status" (Task.status self)) in
  Routes.update_task σ task_id data
  = (TaskStorage.mk (<[task := self']> (heap σ)) (tasks σ) (next_id σ),
     Routes.Json (Task.to_dict self') 200)
  ∧ Task.title (Task.update self (VStr "") VNone VNone VNone) = VStr ""
  ∧ Task.description (Task.update self VNone (VStr "") VNone VNone) = VStr ""
  ∧ Task.update self VNone VNone VNone VNone = self.
Proof.
  intros Hg Hh Hv. simpl. split; [|by destruct self].
  unfold Routes.update_task.
  rewrite bool_decide_eq_false_2 by (intros ->; discriminate).
  rewrite Hg, Hv. simpl.
  unfold TaskStorage.update_task. rewrite Hg.
  rewrite (alter_lookup_insert _ _ _ _ Hh), Task_update_fields.
  rewrite !supplied_or_dict_get.
  unfold Routes.to_dict_at. simpl. by rewrite lookup_insert_eq.
Qed.

Lemma update_null_is_absent_witness :
  Routes.update_task one_task 1 {[ "title" := VStr ""; "description" := VNone ]}
  = (TaskStorage.mk
       {[ TaskStorage.alloc ∅ :=
            Task.mk 1 (VStr "") (VStr "This is a test task") (VStr "2026-12-31")
                    (VStr "Pending") ]}
       {[ 1 := TaskStorage.alloc ∅ ]} 2,
     Routes.Json
       (Task.to_dict (Task.mk 1 (VStr "") (VStr "This is a test task")
                              (VStr "2026-12-31") (VStr "Pending"))) 200).
Proof.
  pose proof (update_null_is_absent one_task 1 (TaskStorage.alloc ∅)
    (Task.mk 1 (VStr "Test Task") (VStr "This is a test task") (VStr "2026-12-31")
             (VStr "Pending"))
    {[ "title" := VStr ""; "description" := VNone ]}) as H.
  destruct H as [H _]; [by vm_compute..|].
  rewrite H. by vm_compute.
Defined.

(** ** Dates *)

Lemma digit_cases c :
  Spec.is_digit c = true →
  c = "0"%char ∨ c = "1"%char ∨ c = "2"%char ∨ c = "3"%char ∨ c = "4"%char
  ∨ c = "5"%char ∨ c = "6"%char ∨ c = "7"%char ∨ c = "8"%char ∨ c = "9"%char.
Proof.
  destruct c as [[] [] [] [] [] [] [] []]; vm_compute; intros H;
    try discriminate; tauto.
Qed.

Ltac digit_split H :=
  apply digit_cases in H;
  destruct H as [-> | [-> | [-> | [-> | [-> | [-> | [-> | [-> | [-> | ->]]]]]]]]].

Ltac digits_true :=
  cbn [forallb];
  repeat match goal with
         | H : Spec.is_digit ?c = true |- context [Spec.is_digit ?c] => rewrite H
         end;
  reflexivity.

Lemma digit_val_range c : Spec.is_digit c = true → 0 ≤ Strptime.digit_val c ≤ 9.
Proof. intros H. digit_split H; vm_compute; split; discriminate. Qed.

Lemma digit_not_blank c : Spec.is_digit c = true → Ascii.eqb c " " = false.
Proof. intros H. by digit_split H. Qed.

Lemma py_int_digits cs :
  forallb Spec.is_digit cs = true → Strptime.py_int cs = Spec.number cs.
Proof.
  unfold Strptime.py_int, Spec.number. generalize 0.
  induction cs as [|c cs IH]; intros acc H; [done|].
  simpl in *. apply andb_true_iff in H as [Hc Hcs].
  rewrite (digit_not_blank _ Hc). by apply IH.
Qed.

Section Matching.
Context {A : Type} (k : list ascii → option A).

Lemma rmatch_Y y1 y2 y3 y4 rest :
  forallb Spec.is_digit [y1; y2; y3; y4] = true →
  Strptime.rmatch Strptime.re_Y (y1 :: y2 :: y3 :: y4 :: rest) k = k rest.
Proof.
  simpl. rewrite !andb_true_iff. unfold Spec.is_digit.
  intros (H1 & H2 & H3 & H4 & _). by rewrite H1, H2, H3, H4.
Qed.

Lemma rmatch_hyphen h rest :
  Ascii.eqb h "-" = true → Strptime.rmatch (Strptime.Lit "-") (h :: rest) k = k rest.
Proof. simpl. by intros ->. Qed.

Lemma rmatch_m m1 m2 rest a :
  Spec.is_digit m1 = true → Spec.is_digit m2 = true →
  1 ≤ Spec.number [m1; m2] ≤ 12 →
  k rest = Some a →
  Strptime.rmatch Strptime.re_m (m1 :: m2 :: rest) k = Some a.
Proof.
  intros H1 H2 Hr Hk. digit_split H1; digit_split H2;
    vm_compute in Hr; try (exfalso; by destruct Hr as [Hr1 Hr2]; (apply Hr1 || apply Hr2));
    cbn; by rewrite Hk.
Qed.

Lemma rmatch_d d1 d2 rest a :
  Spec.is_digit d1 = true → Spec.is_digit d2 = true →
  1 ≤ Spec.number [d1; d2] ≤ 31 →
  k rest = Some a →
  Strptime.rmatch Strptime.re_d (d1 :: d2 :: rest) k = Some a.
Proof.
  intros H1 H2 Hr Hk. digit_split H1; digit_split H2;
    vm_compute in Hr; try (exfalso; by destruct Hr as [Hr1 Hr2]; (apply Hr1 || apply Hr2));
    cbn; by rewrite Hk.
Qed.
End Matching.

Lemma days_in_month_le y m : Strptime.days_in_month y m ≤ 31.
Proof. unfold Strptime.days_in_month. repeat case_match; lia. Qed.

(** X8: Every text in the exact form of the specification, for a year from 1
    on, is accepted. *)
Lemma validate_date_iso (s : string) y m d :
  Spec.date_fields s = Some (y, m, d) → Spec.is_iso_date s = true → 1 ≤ y →
  validate_date (VStr s) = Return (true, None).
Proof.
  unfold Spec.is_iso_date. intros Hf. rewrite Hf. revert Hf.
  unfold Spec.date_fields, validate_date, Strptime.strptime_Ymd.
  destruct (list_ascii_of_string s)
    as [|y1 [|y2 [|y3 [|y4 [|h1 [|m1 [|m2 [|h2 [|d1 [|d2 [|]]]]]]]]]]]; try done.
  destruct (forallb _ _ && _ && _)%bool eqn:Hshape; [|done].
  apply andb_true_iff in Hshape as [[Hdig Hh1]%andb_true_iff Hh2].
  intros [= <- <- <-] Hcal Hy.
  repeat (apply andb_true_iff in Hcal as [Hcal ?]).
  cbn [forallb] in Hdig.
  repeat (apply andb_true_iff in Hdig as [? Hdig]).
  assert (Strptime.regex_match [y1; y2; y3; y4; h1; m1; m2; h2; d1; d2]
          = Some {| Strptime.group_Y := [y1; y2; y3; y4];
                    Strptime.group_m := [m1; m2];
                    Strptime.group_d := [d1; d2];
                    Strptime.unconverted := [] |}) as ->.
  { unfold Strptime.regex_match.
    rewrite rmatch_Y by digits_true.
    rewrite rmatch_hyphen by done.
    apply rmatch_m; [done|done|lia|].
    rewrite rmatch_hyphen by done.
    apply rmatch_d; [done|done| |done].
    pose proof (days_in_month_le (Spec.number [y1; y2; y3; y4]) (Spec.number [m1; m2])).
    lia. }
  cbn [Strptime.unconverted Strptime.group_Y Strptime.group_m Strptime.group_d].
  rewrite !py_int_digits by digits_true.
  unfold Strptime.make_date.
  assert (Spec.number [y1; y2; y3; y4] ≤ 9999) as Hy9.
  { pose proof (digit_val_range y1 ltac:(done)).
    pose proof (digit_val_range y2 ltac:(done)).
    pose proof (digit_val_range y3 ltac:(done)).
    pose proof (digit_val_range y4 ltac:(done)).
    unfold Spec.number. cbn [fold_left]. lia. }
  replace (_ && _ && _ && _ && _ && _)%bool with true; [done|].
  symmetry. repeat (apply andb_true_iff; split); try done; lia.
Qed.

Lemma validate_date_iso_witness :
  validate_date (VStr "2024-02-29") = Return (true, None).
Proof. apply (validate_date_iso "2024-02-29" 2024 2 29); by vm_compute. Defined.

(** The examples of the specification. *)
Example validate_date_examples :
  validate_date (VStr "2026-12-31") = Return (true, None)
  ∧ validate_date (VStr "31-12-2026") = Return (false, Some date_error)
  ∧ validate_date (VStr "2026-13-01") = Return (false, Some date_error)
  ∧ validate_date (VStr "2026-12-32") = Return (false, Some date_error)
  ∧ validate_date (VStr "2026-02-29") = Return (false, Some date_error)
  ∧ validate_date (VStr "0000-01-01") = Return (false, Some date_error)
  ∧ validate_date (VStr "2026-12-31 ") = Return (false, Some date_error)
  ∧ validate_date (VStr "") = Return (false, Some date_error)
  ∧ validate_date VNone = Raise TypeError.
Proof. by vm_compute. Qed.

(** C3: [validate_date] accepts texts that are not in the form
    YYYY-MM-DD: a month or a day of one digit, and a day written as a
    blank and a digit. *)
Theorem validate_date_accepts_short_fields :
  validate_date (VStr "2026-1-5") = Return (true, None)
  ∧ Spec.is_iso_date "2026-1-5" = false
  ∧ validate_date (VStr "2026-12-5") = Return (true, None)
  ∧ Spec.is_iso_date "2026-12-5" = false
  ∧ validate_date (VStr "2026-12- 5") = Return (true, None)
  ∧ Spec.is_iso_date "2026-12- 5" = false.
Proof. by vm_compute. Qed.

(** * Further properties of the code *)

(** ** Validators on arbitrary values and mappings *)

Lemma filter_nil_iff {A} (f : A → bool) (l : list A) :
  List.filter f l = [] ↔ ∀ x, x ∈ l → f x = false.
Proof.
  induction l as [|a l IH]; simpl.
  - split; [intros _ x Hx; by apply elem_of_nil in Hx|done].
  - destruct (f a) eqn:Ha.
    + split; [done|]. intros H. specialize (H a (list_elem_of_here _ _)). congruence.
    + rewrite IH. split.
      * intros H x [->|Hx]%elem_of_cons; auto.
      * intros H x Hx. apply H. by apply list_elem_of_further.
Qed.

(** X1: [validate_task_data] passes exactly when every required name is a key
    of the mapping, whatever value the key holds; otherwise it fails with
    the names that are not keys, in the order they are required. *)
Theorem validate_task_data_presence (data : gmap string value)
    (required_fields : list string) :
  (validate_task_data data required_fields = (true, None)
   ↔ ∀ field, field ∈ required_fields → is_Some (data !! field))
  ∧ (validate_task_data data required_fields = (true, None)
     ∨ validate_task_data data required_fields
       = (false,
          Some ("Missing required fields: "
                ++ join ", " (List.filter (λ field, bool_decide (data !! field = None))
                                          required_fields))))
  ∧ (∀ k v v', validate_task_data (<[k := v]> data) required_fields
               = validate_task_data (<[k := v']> data) required_fields).
Proof.
  assert (∀ d : gmap string value,
            List.filter (λ field, negb (contains d field)) required_fields
            = List.filter (λ field, bool_decide (d !! field = None)) required_fields)
    as Hfilter.
  { intros d. apply List.filter_ext. intros f. unfold contains.
    destruct (d !! f); by vm_compute. }
  split; [|split].
  - unfold validate_task_data.
    destruct (List.filter _ _) as [|m ms] eqn:E.
    + split; [intros _|done]. intros f Hf.
      pose proof (proj1 (filter_nil_iff _ _) E f Hf) as Hc. simpl in Hc.
      apply negb_false_iff, contains_true in Hc. done.
    + split; [discriminate|]. intros H.
      assert (List.filter (λ field, negb (contains data field)) required_fields = [])
        as E'; [|congruence].
      apply filter_nil_iff. intros f Hf. apply negb_false_iff, contains_true. auto.
  - unfold validate_task_data. rewrite Hfilter.
    destruct (List.filter _ _); auto.
  - intros k v v'. unfold validate_task_data.
    replace (List.filter (λ field, negb (contains (<[k:=v]> data) field)) required_fields)
      with (List.filter (λ field, negb (contains (<[k:=v']> data) field)) required_fields);
      [done|].
    apply List.filter_ext. intros f. f_equal. unfold contains.
    apply bool_decide_ext. rewrite !lookup_insert_is_Some. tauto.
Qed.

(** X2: [validate_status] never raises: on any value, of any type, it passes
    exactly for the three status names as str and fails with the one
    message otherwise. *)
Theorem validate_status_any_value (status : value) :
  (validate_status status = (true, None)
   ↔ status = VStr "Pending" ∨ status = VStr "In Progress" ∨ status = VStr "Completed")
  ∧ (validate_status status ≠ (true, None)
     ↔ validate_status status
       = (false, Some "Invalid status. Must be one of: Pending, In Progress, Completed")).
Proof.
  split.
  - unfold validate_status. rewrite <- py_in_valid_statuses.
    destruct (py_in status valid_statuses); simpl; split; done.
  - destruct (validate_status_cases status) as [H|H]; rewrite H; split;
      try done; discriminate.
Qed.

Lemma validate_date_non_str v : (∀ s, v ≠ VStr s) → validate_date v = Raise TypeError.
Proof. intros H. destruct v; try done. by destruct (H s). Qed.

Lemma validate_date_raise_inv date_string e :
  validate_date date_string = Raise e → e = TypeError ∧ ∀ s, date_string ≠ VStr s.
Proof.
  intros H. destruct (validate_date_cases date_string) as [H'|[H'|H']];
    rewrite H' in H; try discriminate.
  injection H as <-. split; [done|]. intros s ->.
  destruct (validate_date_str_cases s) as [H''|H'']; rewrite H'' in H'; discriminate.
Qed.

(** X3: [validate_date] raises exactly on a value that is not a str, and then
    a [TypeError], which its [except ValueError] does not catch; on a str
    it returns. *)
Theorem validate_date_raises (date_string : value) (e : exn) :
  validate_date date_string = Raise e ↔ e = TypeError ∧ ∀ s, date_string ≠ VStr s.
Proof.
  split; [apply validate_date_raise_inv|].
  intros [-> H]. by apply validate_date_non_str.
Qed.

Lemma validate_create_task_all_present data due :
  is_Some (data !! "title") → is_Some (data !! "description") →
  data !! "due_date" = Some due →
  validate_create_task data
  = match validate_date due with
    | Return (true, _) =>
        match data !! "status" with
        | None => Return (true, None)
        | Some st => Return (validate_status st)
        end
    | failure => failure
    end.
Proof.
  intros Ht Hd Hdue. unfold validate_create_task, validate_task_data. simpl.
  apply contains_true in Ht, Hd. rewrite Ht, Hd.
  assert (contains data "due_date" = true) as -> by (apply contains_true; eauto).
  simpl. rewrite (getitem_Some _ _ _ Hdue). simpl.
  destruct (validate_date_cases due) as [-> | [-> | ->]]; simpl; try reflexivity.
  apply validate_update_status_part.
Qed.

Lemma validate_create_task_some_missing data :
  data !! "title" = None ∨ data !! "description" = None ∨ data !! "due_date" = None →
  ∃ msg, validate_create_task data = Return (false, Some msg).
Proof.
  intros H. unfold validate_create_task, validate_task_data. simpl.
  destruct (contains data "title") eqn:Ht;
    destruct (contains data "description") eqn:Hd;
    destruct (contains data "due_date") eqn:Hdue; simpl; eauto.
  apply contains_true in Ht, Hd, Hdue.
  destruct H as [H|[H|H]]; rewrite H in *; by destruct Ht, Hd, Hdue.
Qed.

(** X4: [validate_create_task] raises exactly when the three required keys
    are present and due_date holds a value that is not a str, and then a
    [TypeError]; its own subscripts never raise [KeyError]. *)
Theorem validate_create_task_raises (data : gmap string value) (e : exn) :
  validate_create_task data = Raise e
  ↔ e = TypeError
    ∧ is_Some (data !! "title") ∧ is_Some (data !! "description")
    ∧ ∃ due, data !! "due_date" = Some due ∧ ∀ s, due ≠ VStr s.
Proof.
  split.
  - intros H.
    destruct (data !! "title") as [t|] eqn:Ht;
      [|destruct (validate_create_task_some_missing data) as [m Hm]; [auto|congruence]].
    destruct (data !! "description") as [d|] eqn:Hd;
      [|destruct (validate_create_task_some_missing data) as [m Hm]; [auto|congruence]].
    destruct (data !! "due_date") as [due|] eqn:Hdue;
      [|destruct (validate_create_task_some_missing data) as [m Hm]; [auto|congruence]].
    rewrite (validate_create_task_all_present data due) in H by eauto.
    destruct (validate_date due) as [[[] ?]|e'] eqn:Hv.
    + by destruct (data !! "status").
    + discriminate.
    + injection H as ->. apply validate_date_raise_inv in Hv as [-> Hv]. eauto 10.
  - intros (-> & Ht & Hd & due & Hdue & Hns).
    rewrite (validate_create_task_all_present data due) by eauto.
    by rewrite (validate_date_non_str _ Hns).
Qed.

(** C5: [validate_create_task] does not return the first failure on every
    mapping.  With the three required keys present and a due_date that is
    not a str, such as a number, it returns neither a failure nor success:
    [validate_date] raises a [TypeError] that its [except ValueError] lets
    through, and the create handler answers 500 and not 400; whereas
    [validate_status], on a value that is not a str, returns its failure.
    On every mapping whose due_date is absent or a str the validator does
    return. *)
Theorem validate_create_task_non_str_due_date :
  validate_create_task
    {[ "title" := VStr "Test Task"; "description" := VStr "This is a test task";
       "due_date" := VInt 20261231 ]}
  = Raise TypeError
  ∧ (∀ r, validate_create_task
            {[ "title" := VStr "Test Task"; "description" := VStr "This is a test task";
               "due_date" := VInt 20261231 ]}
          ≠ Return r)
  ∧ Routes.create_task TaskStorage.init
      {[ "title" := VStr "Test Task"; "description" := VStr "This is a test task";
         "due_date" := VInt 20261231 ]}
    = (TaskStorage.init, Routes.InternalError TypeError)
  ∧ validate_status (VInt 20261231)
    = (false, Some "Invalid status. Must be one of: Pending, In Progress, Completed")
  ∧ (∀ (data : gmap string value) due,
       is_Some (data !! "title") → is_Some (data !! "description") →
       data !! "due_date" = Some due → (∀ s, due ≠ VStr s) →
       validate_create_task data = Raise TypeError)
  ∧ (∀ data : gmap string value,
       (∀ due, data !! "due_date" = Some due → ∃ s, due = VStr s) →
       ∃ r, validate_create_task data = Return r).
Proof.
  assert (validate_create_task
            {[ "title" := VStr "Test Task"; "description" := VStr "This is a test task";
               "due_date" := VInt 20261231 ]}
          = Raise TypeError) as Hbad by (by vm_compute).
  split; [done|]. split; [intros r; by rewrite Hbad|].
  split; [by vm_compute|]. split; [by vm_compute|]. split.
  - intros data due Ht Hd Hdue Hns.
    rewrite (validate_create_task_all_present data due) by done.
    by rewrite (validate_date_non_str _ Hns).
  - intros data Hstr.
    destruct (data !! "title") as [t|] eqn:Ht;
      [|destruct (validate_create_task_some_missing data) as [m Hm]; eauto].
    destruct (data !! "description") as [d|] eqn:Hd;
      [|destruct (validate_create_task_some_missing data) as [m Hm]; eauto].
    destruct (data !! "due_date") as [due|] eqn:Hdue;
      [|destruct (validate_create_task_some_missing data) as [m Hm]; eauto].
    rewrite (validate_create_task_all_present data due) by eauto.
    destruct (Hstr due eq_refl) as [s ->].
    destruct (validate_date_str_cases s) as [-> | ->]; [|by eauto].
    destruct (data !! "status"); eauto.
Qed.

(** X5: [validate_update_task] raises exactly when due_date is a key holding
    a value that is not a str, and then a [TypeError]. *)
Theorem validate_update_task_raises (data : gmap string value) (e : exn) :
  validate_update_task data = Raise e
  ↔ e = TypeError ∧ ∃ due, data !! "due_date" = Some due ∧ ∀ s, due ≠ VStr s.
Proof.
  split.
  - intros H. destruct (decide (data = ∅)) as [->|Hne]; [discriminate|].
    rewrite (validate_update_task_nonempty _ Hne) in H.
    destruct (data !! "due_date") as [due|] eqn:Hdue;
      [|by destruct (data !! "status")].
    destruct (validate_date due) as [[[] ?]|e'] eqn:Hv.
    + by destruct (data !! "status").
    + discriminate.
    + injection H as ->. apply validate_date_raise_inv in Hv as [-> Hv]. eauto.
  - intros (-> & due & Hdue & Hns).
    assert (data ≠ ∅) as Hne by (intros ->; by rewrite lookup_empty in Hdue).
    rewrite (validate_update_task_nonempty _ Hne), Hdue.
    by rewrite (validate_date_non_str _ Hns).
Qed.

Lemma contains_ext (data data' : gmap string value) k :
  (is_Some (data !! k) ↔ is_Some (data' !! k)) → contains data k = contains data' k.
Proof. intros H. unfold contains. by apply bool_decide_ext. Qed.

(** X6: The outcome of [validate_create_task] depends only on whether title
    and description are keys and on what due_date and status hold: the
    values of title and description and every other key are not looked
    at. *)
Theorem validate_create_task_depends (data data' : gmap string value) :
  (is_Some (data !! "title") ↔ is_Some (data' !! "title")) →
  (is_Some (data !! "description") ↔ is_Some (data' !! "description")) →
  data !! "due_date" = data' !! "due_date" →
  data !! "status" = data' !! "status" →
  validate_create_task data = validate_create_task data'.
Proof.
  intros Ht Hd Hdue Hst. unfold validate_create_task, validate_task_data, getitem.
  simpl. rewrite (contains_ext _ _ _ Ht), (contains_ext _ _ _ Hd).
  assert (contains data "due_date" = contains data' "due_date") as ->
    by (apply contains_ext; by rewrite Hdue).
  assert (contains data "status" = contains data' "status") as ->
    by (apply contains_ext; by rewrite Hst).
  by rewrite Hdue, Hst.
Qed.

Lemma validate_create_task_depends_witness :
  validate_create_task
    {[ "title" := VNone; "description" := VInt 7; "due_date" := VStr "2026-12-31";
       "priority" := VStr "high" ]}
  = validate_create_task
      {[ "title" := VStr "Test Task"; "description" := VStr "";
         "due_date" := VStr "2026-12-31" ]}.
Proof.
  apply validate_create_task_depends; try (by vm_compute);
    split; intros _; vm_compute; by eexists.
Defined.

(** X7: The outcome of [validate_update_task] on a non-empty mapping depends
    only on what due_date and status hold; other keys are accepted and
    ignored. *)
Theorem validate_update_task_depends (data data' : gmap string value) :
  data ≠ ∅ → data' ≠ ∅ →
  data !! "due_date" = data' !! "due_date" →
  data !! "status" = data' !! "status" →
  validate_update_task data = validate_update_task data'.
Proof.
  intros Hne Hne' Hdue Hst.
  by rewrite !validate_update_task_nonempty, Hdue, Hst.
Qed.

Lemma validate_update_task_depends_witness :
  validate_update_task {[ "status" := VStr "Completed"; "owner" := VList [] ]}
  = validate_update_task {[ "status" := VStr "Completed"; "title" := VNone ]}.
Proof. apply validate_update_task_depends; by vm_compute. Defined.

(** ** Task objects *)

Lemma supplied_or_assoc (new' new old : value) :
  supplied_or new' (supplied_or new old) = supplied_or (supplied_or new' new) old.
Proof.
  unfold supplied_or. destruct (is_not_None new') eqn:E; [by rewrite E|done].
Qed.

Lemma supplied_or_idemp (new old : value) :
  supplied_or new (supplied_or new old) = supplied_or new old.
Proof. unfold supplied_or. by destruct (is_not_None new). Qed.

(** X10: Two calls of [Task.update] in a row act as one call whose argument for
    a field is the later one where it is supplied and the earlier one
    otherwise; repeating a call changes nothing more; the id is kept. *)
Theorem Task_update_compose (self : Task.t) (a b c d a' b' c' d' : value) :
  Task.update (Task.update self a b c d) a' b' c' d'
  = Task.update self (if is_not_None a' then a' else a)
                     (if is_not_None b' then b' else b)
                     (if is_not_None c' then c' else c)
                     (if is_not_None d' then d' else d)
  ∧ Task.update (Task.update self a b c d) a b c d = Task.update self a b c d
  ∧ Task.id (Task.update self a b c d) = Task.id self.
Proof.
  rewrite !Task_update_fields. simpl. split; [|split; [|done]].
  - by rewrite !supplied_or_assoc.
  - by rewrite !supplied_or_idemp.
Qed.

(** X11: [to_dict] loses nothing: it has exactly the five keys, each holding
    the attribute of that name, so two tasks with the same dict are the
    same task. *)
Theorem Task_to_dict_inj (t1 t2 : Task.t) :
  (Task.to_dict t1 = Task.to_dict t2 ↔ t1 = t2)
  ∧ dom (Task.to_dict t1)
    = ({[ "id"; "title"; "description"; "due_date"; "status" ]} : gset string)
  ∧ Task.to_dict t1 !! "id" = Some (VInt (Task.id t1))
  ∧ Task.to_dict t1 !! "title" = Some (Task.title t1)
  ∧ Task.to_dict t1 !! "description" = Some (Task.description t1)
  ∧ Task.to_dict t1 !! "due_date" = Some (Task.due_date t1)
  ∧ Task.to_dict t1 !! "status" = Some (Task.status t1).
Proof.
  assert (∀ t, Task.to_dict t !! "id" = Some (VInt (Task.id t))
             ∧ Task.to_dict t !! "title" = Some (Task.title t)
             ∧ Task.to_dict t !! "description" = Some (Task.description t)
             ∧ Task.to_dict t !! "due_date" = Some (Task.due_date t)
             ∧ Task.to_dict t !! "status" = Some (Task.status t)) as Hl.
  { intros t. unfold Task.to_dict. repeat split; by simplify_map_eq. }
  split; [|split; [|apply Hl]].
  - split; [|by intros ->]. intros E.
    destruct (Hl t1) as (H1 & H2 & H3 & H4 & H5).
    destruct (Hl t2) as (H1' & H2' & H3' & H4' & H5').
    rewrite E in H1, H2, H3, H4, H5.
    destruct t1, t2; simpl in *. congruence.
  - unfold Task.to_dict. rewrite !dom_insert_L, dom_singleton_L. set_solver.
Qed.

(** ** The storage: what an operation leaves alone *)

Lemma wf_tasks_inj σ k1 k2 l :
  wf σ → tasks σ !! k1 = Some l → tasks σ !! k2 = Some l → k1 = k2.
Proof.
  intros [_ _ _ Ht] (s1 & H1 & <-)%Ht (s2 & H2 & <-)%Ht. congruence.
Qed.

Lemma wf_tasks_below σ k l : wf σ → tasks σ !! k = Some l → 1 ≤ k < next_id σ.
Proof. intros [_ Hb _ Ht] (self & Hs & <-)%Ht. eauto. Qed.

(** X12: In a well-formed state [update_task] on one id leaves every other
    stored task as it was: same object, same fields. *)
Theorem update_task_frame (σ : state) (task_id k : Z) (l : loc)
    (title description due_date status : value) :
  wf σ → k ≠ task_id → TaskStorage.get_task σ k = Some l →
  let σ' := (TaskStorage.update_task σ task_id title description due_date status).1 in
  TaskStorage.get_task σ' k = Some l ∧ heap σ' !! l = heap σ !! l.
Proof.
  intros Hwf Hk Hl. unfold TaskStorage.update_task.
  destruct (TaskStorage.get_task σ task_id) as [task|] eqn:Hg; simpl; [|done].
  split; [done|]. apply lookup_alter_ne. intros ->.
  apply Hk. by apply (wf_tasks_inj σ k task_id l).
Qed.

(** X13: In a well-formed state [create_task] overwrites nothing: every task
    stored before is still stored under its id, unchanged, and the new id
    was not in use. *)
Theorem create_task_frame (σ : state) (k : Z) (l : loc)
    (title description due_date : value) (status : option value) :
  wf σ → TaskStorage.get_task σ k = Some l →
  let σ' := (TaskStorage.create_task σ title description due_date status).1 in
  TaskStorage.get_task σ' k = Some l
  ∧ heap σ' !! l = heap σ !! l
  ∧ TaskStorage.get_task σ (next_id σ) = None.
Proof.
  intros Hwf Hl. simpl. unfold TaskStorage.get_task in *. simpl.
  pose proof (wf_tasks_below _ _ _ Hwf Hl) as Hk.
  destruct (wf_tasks _ Hwf _ _ Hl) as (self & Hs & _).
  split; [|split].
  - rewrite lookup_insert_ne; [done|lia].
  - apply lookup_insert_ne. intros <-. by rewrite alloc_fresh in Hs.
  - apply eq_None_not_Some. intros [l' E].
    pose proof (wf_tasks_below _ _ _ Hwf E). lia.
Qed.

Lemma update_task_frame_witness :
  heap (TaskStorage.update_task
          (TaskStorage.create_task one_task (VStr "b") (VStr "") (VStr "2027-01-01") None).1
          2 (VStr "c") VNone VNone VNone).1 !! TaskStorage.alloc ∅
  = Some (Task.mk 1 (VStr "Test Task") (VStr "This is a test task")
                  (VStr "2026-12-31") (VStr "Pending")).
Proof.
  refine (eq_trans (proj2 (update_task_frame
    (TaskStorage.create_task one_task (VStr "b") (VStr "") (VStr "2027-01-01") None).1
    2 1 (TaskStorage.alloc ∅) (VStr "c") VNone VNone VNone _ _ _)) _).
  - apply create_task_wf, create_task_wf, wf_init.
  - done.
  - by vm_compute.
  - by vm_compute.
Defined.

Lemma create_task_frame_witness :
  TaskStorage.get_task
    (TaskStorage.create_task one_task (VStr "b") (VStr "") (VStr "2027-01-01") None).1 1
  = Some (TaskStorage.alloc ∅).
Proof.
  refine (proj1 (create_task_frame one_task 1 (TaskStorage.alloc ∅)
                   (VStr "b") (VStr "") (VStr "2027-01-01") None _ _)).
  - apply create_task_wf, wf_init.
  - by vm_compute.
Defined.

Lemma delete_task_state σ i :
  (TaskStorage.delete_task σ i).1
  = TaskStorage.mk (heap σ) (delete i (tasks σ)) (next_id σ).
Proof.
  unfold TaskStorage.delete_task. case_bool_decide as H; [done|].
  simpl. apply eq_None_not_Some in H. rewrite (delete_id _ _ H). by destruct σ.
Qed.

Lemma delete_task_result σ i :
  (TaskStorage.delete_task σ i).2 = bool_decide (is_Some (tasks σ !! i)).
Proof. unfold TaskStorage.delete_task. by case_bool_decide. Qed.

(** X14: [delete_task] touches no task object; a second delete of the same id
    finds nothing and changes nothing; deletes of two ids give the same
    state in either order. *)
Theorem delete_task_twice (σ : state) (task_id k : Z) :
  TaskStorage.delete_task (TaskStorage.delete_task σ task_id).1 task_id
  = ((TaskStorage.delete_task σ task_id).1, false)
  ∧ (TaskStorage.delete_task (TaskStorage.delete_task σ task_id).1 k).1
    = (TaskStorage.delete_task (TaskStorage.delete_task σ k).1 task_id).1
  ∧ heap (TaskStorage.delete_task σ task_id).1 = heap σ.
Proof.
  split; [|split].
  - rewrite (surjective_pairing (TaskStorage.delete_task _ task_id)).
    rewrite delete_task_result, !delete_task_state. simpl.
    rewrite delete_delete_eq. f_equal.
    apply bool_decide_eq_false_2. rewrite lookup_delete_eq. by intros [??].
  - rewrite !delete_task_state. simpl. by rewrite delete_delete.
  - by rewrite delete_task_state.
Qed.

(** ** The listing *)

Lemma get_all_tasks_elem σ l :
  l ∈ TaskStorage.get_all_tasks σ ↔ ∃ k, tasks σ !! k = Some l.
Proof.
  unfold TaskStorage.get_all_tasks. rewrite list_elem_of_fmap. split.
  - intros ([k l'] & -> & H%elem_of_map_to_list). eauto.
  - intros [k H]. exists (k, l). split; [done|]. by apply elem_of_map_to_list.
Qed.

(** X15: [get_all_tasks] returns the stored task objects and nothing else, as
    many as there are ids; in a well-formed state no object is listed
    twice; on a new storage the listing is empty. *)
Theorem get_all_tasks_stored (σ : state) :
  (∀ l, l ∈ TaskStorage.get_all_tasks σ ↔ ∃ k, TaskStorage.get_task σ k = Some l)
  ∧ length (TaskStorage.get_all_tasks σ) = size (tasks σ)
  ∧ (wf σ → NoDup (TaskStorage.get_all_tasks σ))
  ∧ TaskStorage.get_all_tasks TaskStorage.init = [].
Proof.
  split; [apply get_all_tasks_elem|]. split; [|split; [|done]].
  - unfold TaskStorage.get_all_tasks. by rewrite length_fmap, length_map_to_list.
  - intros Hwf. unfold TaskStorage.get_all_tasks.
    apply NoDup_fmap_2_strong; [|apply NoDup_map_to_list].
    intros [k1 l1] [k2 l2] H1%elem_of_map_to_list H2%elem_of_map_to_list.
    simpl. intros <-. f_equal. by apply (wf_tasks_inj σ k1 k2 l1).
Qed.

(** X16: Over a well-formed state, the listing after a create is the listing
    before plus the new task, and the listing before a successful delete is
    the listing after plus the deleted task (as collections: the order of
    the listing is not part of the model). *)
Theorem get_all_tasks_create_delete (σ : state) :
  wf σ →
  (∀ title description due_date status,
     TaskStorage.get_all_tasks
       (TaskStorage.create_task σ title description due_date status).1
     ≡ₚ (TaskStorage.create_task σ title description due_date status).2
        :: TaskStorage.get_all_tasks σ)
  ∧ (∀ task_id l, TaskStorage.get_task σ task_id = Some l →
       TaskStorage.get_all_tasks σ
       ≡ₚ l :: TaskStorage.get_all_tasks (TaskStorage.delete_task σ task_id).1).
Proof.
  intros Hwf. split.
  - intros. unfold TaskStorage.get_all_tasks. simpl.
    rewrite map_to_list_insert; [done|].
    apply eq_None_not_Some. intros [l' E].
    pose proof (wf_tasks_below _ _ _ Hwf E). lia.
  - intros task_id l Hl. unfold TaskStorage.get_all_tasks, TaskStorage.delete_task.
    unfold TaskStorage.get_task in Hl.
    rewrite bool_decide_eq_true_2 by eauto. simpl.
    by rewrite <- (map_to_list_delete _ _ _ Hl).
Qed.

Lemma get_all_tasks_create_delete_witness :
  TaskStorage.get_all_tasks one_task
  ≡ₚ TaskStorage.alloc ∅
     :: TaskStorage.get_all_tasks (TaskStorage.delete_task one_task 1).1.
Proof.
  refine (proj2 (get_all_tasks_create_delete one_task _) 1 (TaskStorage.alloc ∅) _).
  - apply create_task_wf, wf_init.
  - by vm_compute.
Defined.

(** ** The counter *)

Lemma run_next_id σ ops :
  next_id (run σ ops) = next_id σ + Z.of_nat (length (List.filter is_create ops)).
Proof.
  revert σ. induction ops as [|o ops IH]; intros σ; simpl; [lia|].
  rewrite IH, step_next_id. destruct (is_create o); simpl; lia.
Qed.

(** X17: After any sequence of storage operations on a new storage the counter
    is one more than the number of creates so far, every id in use lies
    from 1 to below the counter, and at most that many tasks are stored. *)
Theorem next_id_counts_creates (ops : list op) :
  let σ := run TaskStorage.init ops in
  let creates := length (List.filter is_create ops) in
  next_id σ = 1 + Z.of_nat creates
  ∧ (∀ k, is_Some (TaskStorage.get_task σ k) → 1 ≤ k ≤ Z.of_nat creates)
  ∧ (size (tasks σ) ≤ creates)%nat.
Proof.
  simpl. pose proof (run_next_id TaskStorage.init ops) as Hn. simpl in Hn.
  pose proof (run_wf _ ops wf_init) as Hwf.
  assert (∀ k, is_Some (TaskStorage.get_task (run TaskStorage.init ops) k) →
               1 ≤ k ≤ Z.of_nat (length (List.filter is_create ops))) as Hk.
  { intros k [l Hl]. pose proof (wf_tasks_below _ _ _ Hwf Hl). lia. }
  split; [lia|]. split; [done|].
  set (n := length (List.filter is_create ops)) in *.
  set (σ := run TaskStorage.init ops) in *.
  assert (dom (tasks σ) ⊆ list_to_set (Z.of_nat <$> seq 1 n)) as Hsub.
  { intros k Hkd%elem_of_dom. apply Hk in Hkd.
    apply elem_of_list_to_set, list_elem_of_fmap. exists (Z.to_nat k).
    split; [lia|]. apply elem_of_seq. lia. }
  apply subseteq_size in Hsub. rewrite size_dom in Hsub.
  etrans; [exact Hsub|].
  rewrite size_list_to_set.
  - by rewrite length_fmap, length_seq.
  - apply NoDup_fmap; [apply _|apply NoDup_seq].
Qed.

(** ** The handlers *)

Lemma validate_create_task_cases data :
  (validate_create_task data = Return (true, None)
   ∧ ∃ title description due,
       data !! "title" = Some title ∧ data !! "description" = Some description
       ∧ data !! "due_date" = Some due
       ∧ validate_date due = Return (true, None)
       ∧ validate_status (dict_get_default data "status" (VStr "Pending")) = (true, None))
  ∨ (∃ msg, validate_create_task data = Return (false, Some msg))
  ∨ validate_create_task data = Raise TypeError.
Proof.
  destruct (data !! "title") as [t|] eqn:Ht;
    [|right; left; apply validate_create_task_some_missing; auto].
  destruct (data !! "description") as [d|] eqn:Hd;
    [|right; left; apply validate_create_task_some_missing; auto].
  destruct (data !! "due_date") as [due|] eqn:Hdue;
    [|right; left; apply validate_create_task_some_missing; auto].
  rewrite (validate_create_task_all_present data due) by eauto.
  unfold dict_get_default.
  destruct (validate_date_cases due) as [Hv | [Hv | Hv]]; rewrite Hv; eauto.
  destruct (data !! "status") as [st|] eqn:Hst; simpl.
  - destruct (validate_status_cases st) as [Hs | Hs]; rewrite Hs; eauto.
    left. split; [done|]. eauto 10.
  - left. split; [done|]. exists t, d, due. by repeat split.
Qed.

Lemma create_handler_valid σ data title description due :
  data !! "title" = Some title → data !! "description" = Some description →
  data !! "due_date" = Some due →
  validate_create_task data = Return (true, None) →
  Routes.create_task σ data
  = ((TaskStorage.create_task σ title description due
        (Some (dict_get_default data "status" (VStr "Pending")))).1,
     Routes.Json
       (Task.to_dict (Task.mk (next_id σ) title description due
                              (dict_get_default data "status" (VStr "Pending")))) 201).
Proof.
  intros Ht Hd Hdue Hv. unfold Routes.create_task.
  rewrite bool_decide_eq_false_2 by (intros ->; by rewrite lookup_empty in Ht).
  rewrite Hv. simpl.
  rewrite (getitem_Some _ _ _ Ht), (getitem_Some _ _ _ Hd), (getitem_Some _ _ _ Hdue).
  simpl. unfold Routes.to_dict_at. simpl. by rewrite lookup_insert_eq.
Qed.

Lemma create_handler_invalid σ data :
  validate_create_task data ≠ Return (true, None) →
  (Routes.create_task σ data).1 = σ
  ∧ (code_of (Routes.create_task σ data).2 = 400
     ∨ (code_of (Routes.create_task σ data).2 = 500
        ∧ validate_create_task data = Raise TypeError)).
Proof.
  intros Hv. unfold Routes.create_task. case_bool_decide; [by auto|].
  destruct (validate_create_task_cases data) as [[H' _]|[[msg H']|H']];
    [done|rewrite H'; simpl; auto..].
Qed.

(** X18: The create handler answers 201 exactly when [validate_create_task]
    accepts the body, 500 exactly when it raises and 400 otherwise; an
    empty body is answered 400; unless the answer is 201 the storage is
    left as it was. *)
Theorem create_handler_outcome (σ : state) (data : gmap string value) :
  (code_of (Routes.create_task σ data).2 = 201
   ↔ validate_create_task data = Return (true, None))
  ∧ (code_of (Routes.create_task σ data).2 = 500
     ↔ ∃ e, validate_create_task data = Raise e)
  ∧ (code_of (Routes.create_task σ data).2 = 201
     ∨ code_of (Routes.create_task σ data).2 = 400
     ∨ code_of (Routes.create_task σ data).2 = 500)
  ∧ (code_of (Routes.create_task σ data).2 ≠ 201 → (Routes.create_task σ data).1 = σ)
  ∧ (data = ∅ → code_of (Routes.create_task σ data).2 = 400).
Proof.
  destruct (validate_create_task_cases data)
    as [[Hv (t & d & due & Ht & Hd & Hdue & _)]|Hbad].
  - rewrite (create_handler_valid σ data t d due) by done. simpl.
    rewrite Hv. repeat split; try done; try (intros [??]; done); auto.
    intros ->. by rewrite lookup_empty in Ht.
  - assert (validate_create_task data ≠ Return (true, None)) as Hne
      by (destruct Hbad as [[msg H]|H]; rewrite H; discriminate).
    destruct (create_handler_invalid σ data Hne) as [Hs Hc].
    repeat split.
    + intros H. destruct Hc as [Hc|[Hc _]]; rewrite Hc in H; discriminate.
    + done.
    + intros H. destruct Hc as [Hc|[_ Hc]]; [rewrite Hc in H; discriminate|eauto].
    + intros [e He]. destruct Hbad as [[msg H]|H]; [congruence|].
      unfold Routes.create_task. case_bool_decide as Hd; [|by rewrite H].
      subst. discriminate.
    + destruct Hc as [Hc|[Hc _]]; auto.
    + done.
    + intros ->. reflexivity.
Qed.

(** X19: A task created through the handler can be read back: after a 201
    answer, the get handler on the id that was the counter answers 200
    with the same body; the body holds that id, the title, description and
    due_date of the request and its status, or ["Pending"] without one. *)
Theorem create_then_get (σ σ' : state) (data body : gmap string value) :
  Routes.create_task σ data = (σ', Routes.Json body 201) →
  Routes.get_task σ' (next_id σ) = Routes.Json body 200
  ∧ next_id σ' = next_id σ + 1
  ∧ body !! "id" = Some (VInt (next_id σ))
  ∧ body !! "title" = data !! "title"
  ∧ body !! "description" = data !! "description"
  ∧ body !! "due_date" = data !! "due_date"
  ∧ body !! "status" = Some (default (VStr "Pending") (data !! "status")).
Proof.
  intros H.
  destruct (validate_create_task_cases data)
    as [[Hv (t & d & due & Ht & Hd & Hdue & _)]|Hbad].
  - rewrite (create_handler_valid σ data t d due) in H by done.
    injection H as <- <-. unfold Routes.get_task, TaskStorage.get_task. simpl.
    rewrite lookup_insert_eq. unfold Routes.to_dict_at. simpl.
    rewrite lookup_insert_eq. rewrite Ht, Hd, Hdue.
    unfold Task.to_dict, dict_get_default. simpl.
    repeat split; by simplify_map_eq.
  - assert (validate_create_task data ≠ Return (true, None)) as Hne
      by (destruct Hbad as [[msg H']|H']; rewrite H'; discriminate).
    destruct (create_handler_invalid σ data Hne) as [_ Hc].
    rewrite H in Hc. simpl in Hc. destruct Hc as [Hc|[Hc _]]; discriminate.
Qed.

Lemma create_then_get_witness :
  Routes.get_task one_task 1
  = Routes.Json (Task.to_dict (Task.mk 1 (VStr "Test Task") (VStr "This is a test task")
                                       (VStr "2026-12-31") (VStr "Pending"))) 200.
Proof.
  refine (proj1 (create_then_get TaskStorage.init one_task
    {[ "title" := VStr "Test Task"; "description" := VStr "This is a test task";
       "due_date" := VStr "2026-12-31" ]} _ _)).
  by vm_compute.
Defined.

Lemma validate_update_task_cases data :
  (validate_update_task data = Return (true, None)
   ∧ data ≠ ∅
   ∧ (∀ due, data !! "due_date" = Some due → validate_date due = Return (true, None))
   ∧ (∀ st, data !! "status" = Some st → validate_status st = (true, None)))
  ∨ (∃ msg, validate_update_task data = Return (false, Some msg))
  ∨ validate_update_task data = Raise TypeError.
Proof.
  destruct (decide (data = ∅)) as [->|Hne]; [right; left; by eexists|].
  rewrite (validate_update_task_nonempty _ Hne).
  assert ((match data !! "status" with
           | Some st => Return (validate_status st)
           | None => Return (true, None)
           end = Return (true, None)
           ∧ ∀ st, data !! "status" = Some st → validate_status st = (true, None))
          ∨ ∃ msg, match data !! "status" with
                   | Some st => Return (validate_status st)
                   | None => Return (true, None)
                   end = Return (false, Some msg)) as Hst.
  { destruct (data !! "status") as [st|]; [|left; by split].
    destruct (validate_status_cases st) as [Hs|Hs]; rewrite Hs; [|by eauto].
    left. split; [done|]. by intros ? [= <-]. }
  destruct (data !! "due_date") as [due|] eqn:Hdue.
  - destruct (validate_date_cases due) as [Hv | [Hv | Hv]]; rewrite Hv; eauto.
    destruct Hst as [[-> Hst]|[msg ->]]; [|by eauto].
    left. repeat split; try done. by intros ? [= <-].
  - destruct Hst as [[-> Hst]|[msg ->]]; [|by eauto].
    left. by repeat split.
Qed.

Lemma update_handler_valid σ task_id task self data :
  TaskStorage.get_task σ task_id = Some task → heap σ !! task = Some self →
  validate_update_task data = Return (true, None) →
  let self' := Task.update self (dict_get data "title") (dict_get data "description")
                           (dict_get data "due_date") (dict_get data "status") in
  Routes.update_task σ task_id data
  = (TaskStorage.mk (<[task := self']> (heap σ)) (tasks σ) (next_id σ),
     Routes.Json (Task.to_dict self') 200).
Proof.
  intros Hg Hh Hv. simpl. unfold Routes.update_task.
  rewrite bool_decide_eq_false_2 by (intros ->; discriminate).
  rewrite Hg, Hv. simpl. unfold TaskStorage.update_task. rewrite Hg.
  rewrite (alter_lookup_insert _ _ _ _ Hh).
  unfold Routes.to_dict_at. simpl. by rewrite lookup_insert_eq.
Qed.

Lemma update_handler_invalid σ task_id data :
  validate_update_task data ≠ Return (true, None) ∨ TaskStorage.get_task σ task_id = None →
  (Routes.update_task σ task_id data).1 = σ
  ∧ (code_of (Routes.update_task σ task_id data).2 = 400
     ∨ code_of (Routes.update_task σ task_id data).2 = 404
     ∨ code_of (Routes.update_task σ task_id data).2 = 500).
Proof.
  intros H. unfold Routes.update_task. case_bool_decide; [by auto|].
  destruct (TaskStorage.get_task σ task_id) as [task|]; [|by auto].
  destruct H as [H|H]; [|done].
  destruct (validate_update_task_cases data) as [[H' _]|[[msg H']|H']];
    [done|rewrite H'; simpl; auto..].
Qed.

(** X20: The update handler checks in this order: an empty body is answered
    400 whatever the id; then an unknown id is answered 404 whatever the
    body holds; then a body the validator refuses is answered 400, or 500
    when it raises.  In a well-formed state every other request is
    answered 200, and only then has the storage changed. *)
Theorem update_handler_outcome (σ : state) (task_id : Z) (data : gmap string value) :
  wf σ →
  (data = ∅ → code_of (Routes.update_task σ task_id data).2 = 400)
  ∧ (data ≠ ∅ → TaskStorage.get_task σ task_id = None →
     code_of (Routes.update_task σ task_id data).2 = 404)
  ∧ (code_of (Routes.update_task σ task_id data).2 = 200
     ↔ is_Some (TaskStorage.get_task σ task_id)
       ∧ validate_update_task data = Return (true, None))
  ∧ (code_of (Routes.update_task σ task_id data).2 ≠ 200
     → (Routes.update_task σ task_id data).1 = σ).
Proof.
  intros Hwf. split; [by intros ->|]. split.
  { intros Hne Hg. unfold Routes.update_task.
    by rewrite bool_decide_eq_false_2, Hg by done. }
  destruct (TaskStorage.get_task σ task_id) as [task|] eqn:Hg.
  - destruct (validate_update_task_cases data) as [[Hv _]|Hbad].
    + destruct (wf_tasks _ Hwf _ _ Hg) as (self & Hs & _).
      rewrite (update_handler_valid σ task_id task self data) by done.
      simpl. rewrite Hv. split; [by eauto|done].
    + assert (validate_update_task data ≠ Return (true, None)) as Hne
        by (destruct Hbad as [[msg H]|H]; rewrite H; discriminate).
      destruct (update_handler_invalid σ task_id data (or_introl Hne)) as [Hs Hc].
      split; [|done]. split; [|by intros [_ ?]].
      intros H. destruct Hc as [Hc|[Hc|Hc]]; rewrite Hc in H; discriminate.
  - destruct (update_handler_invalid σ task_id data (or_intror Hg)) as [Hs Hc].
    split; [|done]. split; [|by intros [[??] _]].
    intros H. destruct Hc as [Hc|[Hc|Hc]]; rewrite Hc in H; discriminate.
Qed.

Lemma update_handler_outcome_witness :
  code_of (Routes.update_task one_task 7 {[ "status" := VStr "Done" ]}).2 = 404.
Proof.
  refine (proj1 (proj2 (update_handler_outcome one_task 7 {[ "status" := VStr "Done" ]} _))
            _ _).
  - apply create_task_wf, wf_init.
  - by vm_compute.
  - by vm_compute.
Defined.

(** X21: In a well-formed state a task updated through the handler can be read
    back: after a 200 answer the get handler on the same id answers 200
    with the same body, which holds that id; ids and counter are as
    before. *)
Theorem update_then_get (σ σ' : state) (task_id : Z) (data body : gmap string value) :
  wf σ →
  Routes.update_task σ task_id data = (σ', Routes.Json body 200) →
  Routes.get_task σ' task_id = Routes.Json body 200
  ∧ body !! "id" = Some (VInt task_id)
  ∧ tasks σ' = tasks σ ∧ next_id σ' = next_id σ.
Proof.
  intros Hwf H.
  destruct (TaskStorage.get_task σ task_id) as [task|] eqn:Hg.
  - destruct (validate_update_task_cases data) as [[Hv _]|Hbad].
    + destruct (wf_tasks _ Hwf _ _ Hg) as (self & Hs & Hid).
      rewrite (update_handler_valid σ task_id task self data) in H by done.
      injection H as <- <-. unfold Routes.get_task, TaskStorage.get_task in *.
      simpl. rewrite Hg. unfold Routes.to_dict_at. simpl. rewrite lookup_insert_eq.
      repeat split; try done.
      unfold Task.to_dict. rewrite Task_update_id, Hid. by simplify_map_eq.
    + assert (validate_update_task data ≠ Return (true, None)) as Hne
        by (destruct Hbad as [[msg H']|H']; rewrite H'; discriminate).
      destruct (update_handler_invalid σ task_id data (or_introl Hne)) as [_ Hc].
      rewrite H in Hc. simpl in Hc. destruct Hc as [Hc|[Hc|Hc]]; discriminate.
  - destruct (update_handler_invalid σ task_id data (or_intror Hg)) as [_ Hc].
    rewrite H in Hc. simpl in Hc. destruct Hc as [Hc|[Hc|Hc]]; discriminate.
Qed.

Lemma update_then_get_witness :
  Routes.get_task (Routes.update_task one_task 1 {[ "status" := VStr "Completed" ]}).1 1
  = Routes.Json (Task.to_dict (Task.mk 1 (VStr "Test Task") (VStr "This is a test task")
                                       (VStr "2026-12-31") (VStr "Completed"))) 200.
Proof.
  refine (proj1 (update_then_get one_task _ 1 {[ "status" := VStr "Completed" ]} _ _ _)).
  - apply create_task_wf, wf_init.
  - by vm_compute.
Defined.

(** X22: In a well-formed state the get handler never answers 500: an unknown
    id gives 404, a stored id gives 200 with the dict of the task stored
    under it, whose id entry is the id asked for. *)
Theorem get_handler_outcome (σ : state) (task_id : Z) :
  wf σ →
  (TaskStorage.get_task σ task_id = None
   ∧ Routes.get_task σ task_id
     = Routes.Json (Routes.error_body (Some "Task not found")) 404)
  ∨ (∃ task self,
       TaskStorage.get_task σ task_id = Some task ∧ heap σ !! task = Some self
       ∧ Task.id self = task_id
       ∧ Routes.get_task σ task_id = Routes.Json (Task.to_dict self) 200).
Proof.
  intros Hwf. unfold Routes.get_task.
  destruct (TaskStorage.get_task σ task_id) as [task|] eqn:Hg; [|by left].
  right. destruct (wf_tasks _ Hwf _ _ Hg) as (self & Hs & Hid).
  exists task, self. unfold Routes.to_dict_at. simpl. by rewrite Hs.
Qed.

Lemma get_handler_outcome_witness :
  code_of (Routes.get_task one_task 1) = 200 ∧ code_of (Routes.get_task one_task 2) = 404.
Proof.
  pose proof (get_handler_outcome one_task 1 (create_task_wf _ _ _ _ _ wf_init)) as H1.
  pose proof (get_handler_outcome one_task 2 (create_task_wf _ _ _ _ _ wf_init)) as H2.
  split.
  - destruct H1 as [[H1 _]|(? & ? & _ & _ & _ & ->)]; [by vm_compute in H1|done].
  - destruct H2 as [[_ ->]|(? & ? & H2 & _)]; [done|by vm_compute in H2].
Defined.

(** X23: The delete handler answers 200 exactly when the id was stored and 404
    otherwise; after it the get handler answers 404 on that id, a second
    delete answers 404, and the get handler answers as before on every
    other id. *)
Theorem delete_handler_outcome (σ : state) (task_id : Z) :
  (code_of (Routes.delete_task σ task_id).2 = 200
   ↔ is_Some (TaskStorage.get_task σ task_id))
  ∧ (code_of (Routes.delete_task σ task_id).2 = 404
     ↔ TaskStorage.get_task σ task_id = None)
  ∧ Routes.get_task (Routes.delete_task σ task_id).1 task_id
    = Routes.Json (Routes.error_body (Some "Task not found")) 404
  ∧ Routes.delete_task (Routes.delete_task σ task_id).1 task_id
    = ((Routes.delete_task σ task_id).1,
       Routes.Json (Routes.error_body (Some "Task not found")) 404)
  ∧ (∀ k, k ≠ task_id →
       Routes.get_task (Routes.delete_task σ task_id).1 k = Routes.get_task σ k).
Proof.
  assert (∀ s i, (Routes.delete_task s i).1 = (TaskStorage.delete_task s i).1) as H1.
  { intros s i. unfold Routes.delete_task.
    by destruct (TaskStorage.delete_task s i) as [? []]. }
  assert (∀ s i, (Routes.delete_task s i).2
                 = if (TaskStorage.delete_task s i).2
                   then Routes.Json {[ "message" := VStr "Task deleted successfully" ]} 200
                   else Routes.Json (Routes.error_body (Some "Task not found")) 404) as H2.
  { intros s i. unfold Routes.delete_task.
    by destruct (TaskStorage.delete_task s i) as [? []]. }
  unfold TaskStorage.get_task.
  split; [|split; [|split; [|split]]].
  - rewrite H2, delete_task_result. case_bool_decide; simpl; split; done.
  - rewrite H2, delete_task_result, eq_None_not_Some.
    case_bool_decide; simpl; split; done.
  - rewrite H1, delete_task_state. unfold Routes.get_task, TaskStorage.get_task.
    simpl. by rewrite lookup_delete_eq.
  - rewrite (surjective_pairing (Routes.delete_task _ task_id)).
    rewrite H2, !H1, delete_task_result, !delete_task_state. simpl.
    rewrite delete_delete_eq, lookup_delete_eq.
    rewrite bool_decide_eq_false_2 by (by intros [??]). done.
  - intros k Hk. rewrite H1, delete_task_state.
    unfold Routes.get_task, TaskStorage.get_task. simpl.
    by rewrite lookup_delete_ne.
Qed.

Lemma mapM_to_dict_at (h : gmap loc Task.t) (ls : list loc) (selves : list Task.t) :
  Forall2 (λ task self, h !! task = Some self) ls selves →
  mapM (λ task, Routes.to_dict_at h (Some task)) ls = Return (Task.to_dict <$> selves).
Proof.
  induction 1 as [|task self ls selves Hh _ IH]; [done|].
  assert (Routes.to_dict_at h (Some task) = Return (Task.to_dict self)) as Hd
    by (unfold Routes.to_dict_at; simpl; by rewrite Hh).
  simpl. rewrite Hd. simpl. by rewrite IH.
Qed.

Lemma heap_objects_exist (h : gmap loc Task.t) (ls : list loc) :
  (∀ task, task ∈ ls → is_Some (h !! task)) →
  ∃ selves, Forall2 (λ task self, h !! task = Some self) ls selves.
Proof.
  induction ls as [|task ls IH]; intros H; [by exists []|].
  destruct (H task (list_elem_of_here _ _)) as [self Hs].
  destruct IH as [selves Hf]; [intros; apply H; by apply list_elem_of_further|].
  exists (self :: selves). by constructor.
Qed.

Lemma distinct_objects_distinct_ids σ (ls : list loc) (selves : list Task.t) :
  wf σ → NoDup ls →
  Forall2 (λ task self, heap σ !! task = Some self) ls selves →
  NoDup (Task.id <$> selves).
Proof.
  intros Hwf Hnd Hf. induction Hf as [|task self ls selves Hh Hf IH]; [constructor|].
  apply NoDup_cons in Hnd as [Hnotin Hnd]. simpl. constructor; [|by apply IH].
  intros (self' & Hid & Hin)%list_elem_of_fmap. apply Hnotin.
  apply list_elem_of_lookup in Hin as [i Hi].
  destruct (Forall2_lookup_r _ _ _ _ _ Hf Hi) as (task' & Hi' & Hh').
  rewrite (wf_heap_inj _ Hwf task task' self self' Hh Hh' Hid).
  by apply list_elem_of_lookup_2 in Hi'.
Qed.

(** X24: In a well-formed state the list handler answers 200 with one dict per
    stored task, the dict of that task, and no id appears in two of
    them. *)
Theorem list_handler_outcome (σ : state) :
  wf σ →
  ∃ selves,
    Routes.get_all_tasks σ = Routes.JsonList (Task.to_dict <$> selves) 200
    ∧ Forall2 (λ task self, heap σ !! task = Some self)
              (TaskStorage.get_all_tasks σ) selves
    ∧ length selves = size (tasks σ)
    ∧ NoDup (Task.id <$> selves)
    ∧ ∀ self, self ∈ selves → is_Some (TaskStorage.get_task σ (Task.id self)).
Proof.
  intros Hwf.
  destruct (heap_objects_exist (heap σ) (TaskStorage.get_all_tasks σ)) as [selves Hf].
  { intros task [k Hk]%get_all_tasks_elem.
    destruct (wf_tasks _ Hwf _ _ Hk) as (self & Hs & _). eauto. }
  exists selves. split; [|split; [done|split; [|split]]].
  - unfold Routes.get_all_tasks. by rewrite (mapM_to_dict_at _ _ _ Hf).
  - rewrite <- (Forall2_length _ _ _ Hf).
    unfold TaskStorage.get_all_tasks. by rewrite length_fmap, length_map_to_list.
  - apply (distinct_objects_distinct_ids σ (TaskStorage.get_all_tasks σ)); [done| |done].
    unfold TaskStorage.get_all_tasks.
    apply NoDup_fmap_2_strong; [|apply NoDup_map_to_list].
    intros [k1 l1] [k2 l2] H1%elem_of_map_to_list H2%elem_of_map_to_list.
    simpl. intros <-. f_equal. by apply (wf_tasks_inj σ k1 k2 l1).
  - intros self [i Hi]%list_elem_of_lookup.
    destruct (Forall2_lookup_r _ _ _ _ _ Hf Hi) as (task & Hi' & Hh).
    apply list_elem_of_lookup_2, get_all_tasks_elem in Hi' as [k Hk].
    destruct (wf_tasks _ Hwf _ _ Hk) as (self' & Hs' & Hid).
    assert (self' = self) as -> by congruence.
    rewrite Hid. unfold TaskStorage.get_task. eauto.
Qed.

Lemma list_handler_outcome_witness :
  ∃ selves, Routes.get_all_tasks one_task
            = Routes.JsonList (Task.to_dict <$> selves) 200
            ∧ length selves = 1%nat.
Proof.
  destruct (list_handler_outcome one_task (create_task_wf _ _ _ _ _ wf_init))
    as (selves & H & _ & Hlen & _).
  exists selves. split; [exact H|]. rewrite Hlen. by vm_compute.
Defined.

(** ** Invariants over sequences of requests *)

Lemma validate_status_py_in status :
  validate_status status = (true, None) → py_in status valid_statuses = true.
Proof. unfold validate_status. by destruct (py_in status valid_statuses). Qed.

Lemma validate_date_not_None due :
  validate_date due = Return (true, None) → is_not_None due = true.
Proof. by destruct due. Qed.

Lemma py_in_not_None status :
  py_in status valid_statuses = true → is_not_None status = true.
Proof. by destruct status. Qed.

Lemma handle_wf σ r : wf σ → wf (handle σ r).
Proof.
  intros Hwf. destruct r as [data| |task_id|task_id data|task_id]; simpl; try done.
  - destruct (validate_create_task_cases data)
      as [[Hv (t & d & due & Ht & Hd & Hdue & _)]|Hbad].
    + rewrite (create_handler_valid σ data t d due) by done. by apply create_task_wf.
    + assert (validate_create_task data ≠ Return (true, None)) as Hne
        by (destruct Hbad as [[msg H]|H]; rewrite H; discriminate).
      by rewrite (proj1 (create_handler_invalid σ data Hne)).
  - unfold Routes.update_task. case_bool_decide; [done|].
    destruct (TaskStorage.get_task σ task_id) as [task|] eqn:Hg; [|done].
    destruct (validate_update_task data) as [[[] ?]|?]; simpl; try done.
    pose proof (update_task_wf σ task_id (dict_get data "title")
      (dict_get data "description") (dict_get data "due_date") (dict_get data "status") Hwf).
    destruct (TaskStorage.update_task _ _ _ _ _ _) as [σ' r]. simpl in *.
    by destruct (Routes.to_dict_at _ _).
  - unfold Routes.delete_task.
    pose proof (delete_task_wf σ task_id Hwf).
    by destruct (TaskStorage.delete_task σ task_id) as [σ' []].
Qed.

Lemma handle_valid_fields σ r :
  wf σ →
  (∀ l self, heap σ !! l = Some self → valid_fields self) →
  ∀ l self, heap (handle σ r) !! l = Some self → valid_fields self.
Proof.
  intros Hwf Hval. destruct r as [data| |task_id|task_id data|task_id]; simpl; try done.
  - destruct (validate_create_task_cases data)
      as [[Hv (t & d & due & Ht & Hd & Hdue & Hdate & Hst)]|Hbad].
    + rewrite (create_handler_valid σ data t d due) by done. simpl.
      intros l self. rewrite lookup_insert. case_decide; [|by apply Hval].
      intros [= <-]. split; simpl; [by apply validate_status_py_in|done].
    + assert (validate_create_task data ≠ Return (true, None)) as Hne
        by (destruct Hbad as [[msg H]|H]; rewrite H; discriminate).
      by rewrite (proj1 (create_handler_invalid σ data Hne)).
  - destruct (TaskStorage.get_task σ task_id) as [task|] eqn:Hg;
      [|by rewrite (proj1 (update_handler_invalid σ task_id data (or_intror Hg)))].
    destruct (validate_update_task_cases data) as [[Hv (_ & Hdate & Hst)]|Hbad].
    + destruct (wf_tasks _ Hwf _ _ Hg) as (old & Hs & _).
      rewrite (update_handler_valid σ task_id task old data) by done. simpl.
      intros l self. rewrite lookup_insert. case_decide; [|by apply Hval].
      intros [= <-]. destruct (Hval _ _ Hs) as [Hold_st Hold_date].
      rewrite Task_update_fields. unfold valid_fields, supplied_or, dict_get. simpl.
      split.
      * destruct (data !! "status") as [st|] eqn:E; simpl; [|done].
        pose proof (validate_status_py_in _ (Hst _ eq_refl)) as Hin.
        by rewrite (py_in_not_None _ Hin).
      * destruct (data !! "due_date") as [due|] eqn:E; simpl; [|done].
        by rewrite (validate_date_not_None _ (Hdate _ eq_refl)), (Hdate _ eq_refl).
    + assert (validate_update_task data ≠ Return (true, None)) as Hne
        by (destruct Hbad as [[msg H]|H]; rewrite H; discriminate).
      by rewrite (proj1 (update_handler_invalid σ task_id data (or_introl Hne))).
  - unfold Routes.delete_task.
    pose proof (delete_task_state σ task_id) as Hd.
    destruct (TaskStorage.delete_task σ task_id) as [σ' []]; simpl in *; by subst.
Qed.

(** X25: Whatever requests the five routes have served since the storage was
    built, the state is well formed (ids unique, below the counter, each
    task stored under its own id) and every task object has a status that
    is one of the three names and a due date that is a str the date
    validator accepts. *)
Theorem serve_invariant (rs : list request) :
  wf (serve TaskStorage.init rs)
  ∧ ∀ l self, heap (serve TaskStorage.init rs) !! l = Some self →
      valid_fields self
      ∧ (Task.status self = VStr "Pending" ∨ Task.status self = VStr "In Progress"
         ∨ Task.status self = VStr "Completed")
      ∧ ∃ s, Task.due_date self = VStr s.
Proof.
  assert (∀ σ, wf σ → (∀ l self, heap σ !! l = Some self → valid_fields self) →
               wf (serve σ rs)
               ∧ ∀ l self, heap (serve σ rs) !! l = Some self → valid_fields self) as H.
  { induction rs as [|r rs IH]; intros σ Hwf Hval; [done|]. simpl.
    apply IH; [by apply handle_wf|by apply handle_valid_fields]. }
  destruct (H TaskStorage.init wf_init) as [Hwf Hval].
  { intros l self. simpl. by rewrite lookup_empty. }
  split; [done|]. intros l self Hs. destruct (Hval _ _ Hs) as [Hst Hdate].
  split; [done|]. split; [by apply py_in_valid_statuses|].
  destruct (Task.due_date self); try discriminate. eauto.
Qed.

(** ** What the date validator accepts *)

Lemma rmatch_sound {A} (r : Strptime.regex) (s : list ascii)
    (k : list ascii → option A) (a : A) :
  Strptime.rmatch r s k = Some a →
  ∃ p s', s = (p ++ s')%list ∧ matches r p ∧ k s' = Some a.
Proof.
  revert s k. induction r as [c|lo hi|r1 IH1 r2 IH2|r1 IH1 r2 IH2]; intros s k; simpl.
  - destruct s as [|x s]; [done|]. destruct (Ascii.eqb_spec x c) as [->|]; [|done].
    intros H. exists [c], s. repeat split; [constructor|done].
  - destruct s as [|x s]; [done|]. destruct (Strptime.in_range lo hi x) eqn:E; [|done].
    intros H. exists [x], s. repeat split; [by constructor|done].
  - intros (p1 & s1 & -> & H1 & (p2 & s2 & -> & H2 & Hk)%IH2)%IH1.
    exists (p1 ++ p2)%list, s2. rewrite app_assoc. repeat split; [by constructor|done].
  - destruct (Strptime.rmatch r1 s k) as [a'|] eqn:E.
    + intros [= ->]. apply IH1 in E as (p & s' & -> & H & Hk).
      exists p, s'. repeat split; [by apply matches_Alt_l|done].
    + intros (p & s' & -> & H & Hk)%IH2.
      exists p, s'. repeat split; [by apply matches_Alt_r|done].
Qed.

Lemma consumed_app (p s : list ascii) : Strptime.consumed (p ++ s) s = p.
Proof.
  unfold Strptime.consumed. rewrite length_app.
  replace (length p + length s - length s)%nat with (length p) by lia.
  by rewrite take_app_length.
Qed.

Ltac invert_matches :=
  repeat match goal with
         | H : matches (Strptime.Seq _ _) _ |- _ => inversion H; clear H; subst
         | H : matches (Strptime.Alt _ _) _ |- _ => inversion H; clear H; subst
         | H : matches (Strptime.Lit _) _ |- _ => inversion H; clear H; subst
         | H : matches (Strptime.Range _ _) _ |- _ => inversion H; clear H; subst
         end.

Lemma range_digit lo hi c :
  Strptime.in_range lo hi c = true →
  Strptime.in_range "0" "9" lo = true → Strptime.in_range "0" "9" hi = true →
  Spec.is_digit c = true.
Proof.
  unfold Spec.is_digit, Strptime.in_range. rewrite !andb_true_iff, !N.leb_le. lia.
Qed.

Lemma matches_Y p :
  matches Strptime.re_Y p → length p = 4%nat ∧ forallb Spec.is_digit p = true.
Proof.
  unfold Strptime.re_Y, Strptime.digit. intros H. invert_matches.
  split; [done|]. simpl. unfold Spec.is_digit.
  repeat match goal with H : _ = true |- _ => rewrite H; clear H end. done.
Qed.

Ltac ranges_to_digits :=
  repeat match goal with
         | H : Strptime.in_range ?lo ?hi ?c = true |- _ =>
             lazymatch lo with
             | "0"%char => lazymatch hi with "9"%char => fail | _ => idtac end
             | _ => idtac
             end;
             apply range_digit in H; [|reflexivity..]; unfold Spec.is_digit in H
         end;
  unfold Spec.is_digit;
  repeat match goal with
         | H : Strptime.in_range "0" "9" ?c = true
           |- context [Strptime.in_range "0" "9" ?c] => rewrite H
         end.

Lemma matches_m p :
  matches Strptime.re_m p →
  (length p = 1%nat ∨ length p = 2%nat) ∧ forallb Spec.is_digit p = true.
Proof.
  unfold Strptime.re_m. intros H. invert_matches; simpl;
    (split; [auto|]); ranges_to_digits; reflexivity.
Qed.

Lemma matches_d p :
  matches Strptime.re_d p →
  (length p = 1%nat ∨ length p = 2%nat)
  ∧ (forallb Spec.is_digit p = true
     ∨ ∃ c, p = [" "%char; c] ∧ Spec.is_digit c = true).
Proof.
  unfold Strptime.re_d, Strptime.digit. intros H. invert_matches; simpl;
    (split; [auto|]); ranges_to_digits;
    first [ left; reflexivity
          | right; eexists; split; [reflexivity|assumption] ].
Qed.

(** Every str that [validate_date] accepts is four digits, a hyphen, a
    month of one or two digits, a hyphen and a day of one or two digits or
    a blank and a digit, eight to ten characters in all, and names a day
    that exists in that month of a year from 1 to 9999. *)
Theorem validate_date_accepted_shape (s : string) :
  validate_date (VStr s) = Return (true, None) →
  ∃ Y m d,
    list_ascii_of_string s = (Y ++ "-"%char :: m ++ "-"%char :: d)%list
    ∧ length Y = 4%nat ∧ forallb Spec.is_digit Y = true
    ∧ (length m = 1%nat ∨ length m = 2%nat) ∧ forallb Spec.is_digit m = true
    ∧ (length d = 1%nat ∨ length d = 2%nat)
    ∧ (forallb Spec.is_digit d = true ∨ ∃ c, d = [" "%char; c] ∧ Spec.is_digit c = true)
    ∧ 1 ≤ Strptime.py_int Y ≤ 9999
    ∧ 1 ≤ Strptime.py_int m ≤ 12
    ∧ 1 ≤ Strptime.py_int d ≤ Strptime.days_in_month (Strptime.py_int Y) (Strptime.py_int m)
    ∧ (8 ≤ length (list_ascii_of_string s) ≤ 10)%nat.
Proof.
  unfold validate_date, Strptime.strptime_Ymd.
  destruct (Strptime.regex_match (list_ascii_of_string s)) as [f|] eqn:Hm; [|done].
  destruct (Strptime.unconverted f) eqn:Hu; [|done].
  destruct (Strptime.make_date _ _ _) as [?|e] eqn:Hd; [|by destruct e].
  intros _. unfold Strptime.regex_match in Hm.
  apply rmatch_sound in Hm as (Y & s1 & Hs & HY & Hm).
  apply rmatch_sound in Hm as (h1 & s2 & -> & Hh1 & Hm).
  apply rmatch_sound in Hm as (m & s3 & -> & Hmm & Hm).
  apply rmatch_sound in Hm as (h2 & s4 & -> & Hh2 & Hm).
  apply rmatch_sound in Hm as (d & s5 & -> & Hdd & Hm).
  injection Hm as <-. simpl in Hu. subst s5.
  inversion Hh1; subst. inversion Hh2; subst. clear Hh1 Hh2.
  cbn [Strptime.group_Y Strptime.group_m Strptime.group_d] in Hd.
  rewrite Hs, !consumed_app in Hd.
  unfold Strptime.make_date in Hd.
  destruct (_ && _)%bool eqn:Hc in Hd; [|done].
  repeat (apply andb_true_iff in Hc as [Hc ?]).
  apply matches_Y in HY as [HYl HYd].
  apply matches_m in Hmm as [Hml Hmd].
  apply matches_d in Hdd as [Hdl Hdd].
  exists Y, m, d. rewrite Hs, app_nil_r.
  repeat split; try done; try lia.
  all: rewrite !length_app; simpl; rewrite ?length_app; simpl; lia.
Qed.

Lemma validate_date_accepted_shape_witness :
  ∃ Y m d, list_ascii_of_string "2026-1-5" = (Y ++ "-"%char :: m ++ "-"%char :: d)%list
           ∧ length Y = 4%nat.
Proof.
  destruct (validate_date_accepted_shape "2026-1-5") as (Y & m & d & H1 & H2 & _);
    [by vm_compute|].
  exists Y, m, d. split; [exact H1|exact H2].
Defined.

Section MatchingShapes.
Context {A : Type} (k : list ascii → option A).

Lemma rmatch_m_shape m rest a :
  length m = 1%nat ∨ length m = 2%nat →
  forallb Spec.is_digit m = true →
  1 ≤ Strptime.py_int m ≤ 12 →
  k ("-"%char :: rest) = Some a →
  Strptime.rmatch Strptime.re_m (m ++ "-"%char :: rest) k = Some a.
Proof.
  intros Hl Hd Hr Hk. destruct m as [|m1 [|m2 [|]]]; simpl in Hl; try lia.
  - simpl in Hd. rewrite andb_true_r in Hd. digit_split Hd;
      vm_compute in Hr;
      try (exfalso; by destruct Hr as [Hr1 Hr2]; (apply Hr1 || apply Hr2));
      cbn; by rewrite Hk.
  - rewrite py_int_digits in Hr by done.
    simpl in Hd. rewrite andb_true_r in Hd. apply andb_true_iff in Hd as [H1 H2].
    by apply rmatch_m.
Qed.

Lemma rmatch_d_shape d a :
  length d = 1%nat ∨ length d = 2%nat →
  forallb Spec.is_digit d = true ∨ (∃ c, d = [" "%char; c] ∧ Spec.is_digit c = true) →
  1 ≤ Strptime.py_int d ≤ 31 →
  k [] = Some a →
  Strptime.rmatch Strptime.re_d d k = Some a.
Proof.
  intros Hl [Hd|(c & -> & Hc)] Hr Hk.
  - destruct d as [|d1 [|d2 [|]]]; simpl in Hl; try lia.
    + simpl in Hd. rewrite andb_true_r in Hd. digit_split Hd;
        vm_compute in Hr;
        try (exfalso; by destruct Hr as [Hr1 Hr2]; (apply Hr1 || apply Hr2));
        cbn; by rewrite Hk.
    + rewrite py_int_digits in Hr by done.
      simpl in Hd. rewrite andb_true_r in Hd. apply andb_true_iff in Hd as [H1 H2].
      by apply rmatch_d.
  - digit_split Hc; vm_compute in Hr;
      try (exfalso; by destruct Hr as [Hr1 Hr2]; (apply Hr1 || apply Hr2));
      cbn; by rewrite Hk.
Qed.
End MatchingShapes.

(** X9: Among ASCII texts, the strs [validate_date] accepts are exactly
    these: four digits, a hyphen, a month of one or two digits, a hyphen,
    and a day of one or two digits or of a blank and a digit, that name a
    day which exists in that month of a year from 1 on. *)
Theorem validate_date_accepts_exactly (s : string) :
  is_ascii_text s = true →
  validate_date (VStr s) = Return (true, None)
  ↔ ∃ Y m d,
      list_ascii_of_string s = (Y ++ "-"%char :: m ++ "-"%char :: d)%list
      ∧ length Y = 4%nat ∧ forallb Spec.is_digit Y = true
      ∧ (length m = 1%nat ∨ length m = 2%nat) ∧ forallb Spec.is_digit m = true
      ∧ (length d = 1%nat ∨ length d = 2%nat)
      ∧ (forallb Spec.is_digit d = true ∨ ∃ c, d = [" "%char; c] ∧ Spec.is_digit c = true)
      ∧ 1 ≤ Strptime.py_int Y
      ∧ 1 ≤ Strptime.py_int m ≤ 12
      ∧ 1 ≤ Strptime.py_int d
          ≤ Strptime.days_in_month (Strptime.py_int Y) (Strptime.py_int m).
Proof.
  intros _. split.
  - intros H. destruct (validate_date_accepted_shape s H)
      as (Y & m & d & H1 & H2 & H3 & H4 & H5 & H6 & H7 & H8 & H9 & H10 & _).
    exists Y, m, d. repeat split; try done; lia.
  - intros (Y & m & d & Hs & HYl & HYd & Hml & Hmd & Hdl & Hdd & Hy & Hm & Hd).
    unfold validate_date, Strptime.strptime_Ymd. rewrite Hs.
    assert (∃ f, Strptime.regex_match (Y ++ "-"%char :: m ++ "-"%char :: d) = Some f
                 ∧ Strptime.group_Y f = Y ∧ Strptime.group_m f = m
                 ∧ Strptime.group_d f = d ∧ Strptime.unconverted f = []) as Hf.
    { destruct Y as [|y1 [|y2 [|y3 [|y4 [|]]]]]; simpl in HYl; try lia.
      eexists. split.
      - unfold Strptime.regex_match.
        change ([y1; y2; y3; y4] ++ "-"%char :: m ++ "-"%char :: d)%list
          with (y1 :: y2 :: y3 :: y4 :: "-"%char :: m ++ "-"%char :: d)%list.
        rewrite rmatch_Y by done. rewrite rmatch_hyphen by done.
        apply rmatch_m_shape; [done|done|done|].
        rewrite rmatch_hyphen by done.
        apply rmatch_d_shape; [done|done| |reflexivity].
        pose proof (days_in_month_le (Strptime.py_int [y1; y2; y3; y4])
                                     (Strptime.py_int m)). lia.
      - cbn [Strptime.group_Y Strptime.group_m Strptime.group_d Strptime.unconverted].
        repeat split.
        + apply (consumed_app [y1; y2; y3; y4]).
        + apply consumed_app.
        + rewrite <- (app_nil_r d) at 1. apply consumed_app. }
    destruct Hf as (f & -> & -> & -> & -> & ->).
    unfold Strptime.make_date.
    assert (Strptime.py_int Y ≤ 9999) as Hy9.
    { rewrite py_int_digits by done.
      destruct Y as [|y1 [|y2 [|y3 [|y4 [|]]]]]; simpl in HYl; try lia.
      simpl in HYd. rewrite andb_true_r in HYd.
      apply andb_true_iff in HYd as [? [? [? ?]%andb_true_iff]%andb_true_iff].
      pose proof (digit_val_range y1 ltac:(done)).
      pose proof (digit_val_range y2 ltac:(done)).
      pose proof (digit_val_range y3 ltac:(done)).
      pose proof (digit_val_range y4 ltac:(done)).
      unfold Spec.number. cbn [fold_left]. lia. }
    replace (_ && _ && _ && _ && _ && _)%bool with true; [done|].
    symmetry. repeat (apply andb_true_iff; split); lia.
Qed.

Lemma validate_date_accepts_exactly_witness :
  validate_date (VStr "2026-12- 5") = Return (true, None)
  ∧ validate_date (VStr "2026-1-5") = Return (true, None).
Proof.
  split.
  - refine (proj2 (validate_date_accepts_exactly "2026-12- 5" _) _); [by vm_compute|].
    exists ["2"; "0"; "2"; "6"]%char, ["1"; "2"]%char, [" "; "5"]%char.
    repeat split; try (by vm_compute); auto.
    right. by exists "5"%char.
  - refine (proj2 (validate_date_accepts_exactly "2026-1-5" _) _); [by vm_compute|].
    exists ["2"; "0"; "2"; "6"]%char, ["1"]%char, ["5"]%char.
    repeat split; try (by vm_compute); auto.
Defined.
